(** * Tradis: interaction dispatch and device-state rendering (src/server.js)

    A shallow embedding of the handlers of [src/server.js]: the three
    interactive-message handlers ([accept_tos], [pick_sf_neighborhood],
    [dialog_submission]), the options handler, the device listing
    ([getAndPrintDevices], [printDeviceInfo]), the slash command
    ([slackSlashCommand]) and the helper [validateKudosSubmission].

    JavaScript data is embedded as a tree of [value]s, synchronous code as
    an exception monad over [value]s, and the handlers as a state monad over
    a [world] that records the received event, the [respond] calls, the
    console, the responses written to [res], the persistence state and the
    callbacks scheduled for later. *)

From Stdlib Require Import ZArith List Bool String Ascii Lia.
From Stdlib Require Import DecimalString DecimalNat.
Import ListNotations.
Open Scope string_scope.
Open Scope list_scope.
Open Scope Z_scope.

Set Implicit Arguments.
Set Warnings "-register-all".

(** ** JavaScript strings

    A JavaScript string is a sequence of UTF-16 code units.  The literals of
    the source are ASCII but for the letter a-with-ring (code unit 229) of
    the command name and of the modal title. *)

Definition jsstring := list N.

Definition lit (s : string) : jsstring :=
  map N_of_ascii (list_ascii_of_string s).

Definition a_ring : jsstring := [229%N].

Fixpoint jsstring_eqb (s t : jsstring) : bool :=
  match s, t with
  | [], [] => true
  | c :: s', d :: t' => N.eqb c d && jsstring_eqb s' t'
  | _, _ => false
  end.

(** ** JavaScript values

    Payloads, device records and replies are JSON-like trees.  An object is
    the list of its own enumerable properties in enumeration order; property
    names are kept as Rocq strings.  Numbers are the integral ones ([Z]): the
    program only compares them with the device type codes and prints them. *)

Inductive value : Type :=
| VUndefined
| VNull
| VBool (b : bool)
| VNum (n : Z)
| VStr (s : jsstring)
| VArr (xs : list value)
| VObj (fields : list (string * value)).

Definition str (s : string) : value := VStr (lit s).

(** What a [throw] or a rejected promise carries: a [TypeError] raised by the
    language itself, or the reason a collaborator rejected with. *)
Inductive exn : Type :=
| TypeError
| Rejected (reason : value).

Inductive outcome (A : Type) : Type :=
| Return (a : A)
| Throw (e : exn).
Arguments Return {A} a.
Arguments Throw {A} e.

Definition obind {A B} (o : outcome A) (k : A -> outcome B) : outcome B :=
  match o with
  | Return a => k a
  | Throw e => Throw e
  end.

Declare Scope js_scope.
Delimit Scope js_scope with js.
Notation "'let?' x ':=' e 'in' k" := (obind e (fun x => k))
  (at level 10, x name, e at level 100, k at level 200) : js_scope.
Open Scope js_scope.

(** *** Property access *)

Definition nullish (v : value) : bool :=
  match v with
  | VUndefined | VNull => true
  | _ => false
  end.

Fixpoint lookup (k : string) (fs : list (string * value)) : value :=
  match fs with
  | [] => VUndefined
  | (k', v) :: fs' => if String.eqb k k' then v else lookup k fs'
  end.

(** [v.k] on a value that is neither [undefined] nor [null]. *)
Definition prop (v : value) (k : string) : value :=
  match v with
  | VObj fs => lookup k fs
  | VArr xs =>
      if String.eqb k "length" then VNum (Z.of_nat (List.length xs)) else VUndefined
  | VStr s =>
      if String.eqb k "length" then VNum (Z.of_nat (List.length s)) else VUndefined
  | _ => VUndefined
  end.

(** [v.k]: reading a property of [undefined] or [null] throws. *)
Definition get (v : value) (k : string) : outcome value :=
  if nullish v then Throw TypeError else Return (prop v k).

Definition index_key (i : nat) : string :=
  NilZero.string_of_uint (Nat.to_uint i).

(** [v[i]] on a value that is neither [undefined] nor [null]. *)
Definition elem (v : value) (i : nat) : value :=
  match v with
  | VArr xs => nth i xs VUndefined
  | VObj fs => lookup (index_key i) fs
  | VStr s =>
      match nth_error s i with
      | Some c => VStr [c]
      | None => VUndefined
      end
  | _ => VUndefined
  end.

Definition get_index (v : value) (i : nat) : outcome value :=
  if nullish v then Throw TypeError else Return (elem v i).

(** *** Property update and deletion

    [set_prop] and [set_index] write a value back at a place that was just
    read; [delete_prop] is [delete v.k]. *)

Fixpoint replace_field (k : string) (v : value) (fs : list (string * value))
  : list (string * value) :=
  match fs with
  | [] => []
  | (k', v') :: fs' =>
      if String.eqb k k' then (k', v) :: fs'
      else (k', v') :: replace_field k v fs'
  end.

Definition set_prop (o : value) (k : string) (v : value) : value :=
  match o with
  | VObj fs => VObj (replace_field k v fs)
  | _ => o
  end.

Fixpoint replace_nth (i : nat) (v : value) (xs : list value) : list value :=
  match xs, i with
  | [], _ => []
  | _ :: xs', O => v :: xs'
  | x :: xs', S i' => x :: replace_nth i' v xs'
  end.

Definition set_index (o : value) (i : nat) (v : value) : value :=
  match o with
  | VArr xs => VArr (replace_nth i v xs)
  | VObj fs => VObj (replace_field (index_key i) v fs)
  | _ => o
  end.

Definition remove_field (k : string) (fs : list (string * value))
  : list (string * value) :=
  filter (fun kv => negb (String.eqb k (fst kv))) fs.

Definition delete_prop (o : value) (k : string) : outcome value :=
  match o with
  | VUndefined | VNull => Throw TypeError
  | VObj fs => Return (VObj (remove_field k fs))
  | _ => Return o
  end.

(** *** Conversions and comparisons *)

(** [ToBoolean]. *)
Definition to_boolean (v : value) : bool :=
  match v with
  | VUndefined | VNull => false
  | VBool b => b
  | VNum n => negb (n =? 0)
  | VStr s => match s with [] => false | _ => true end
  | VArr _ | VObj _ => true
  end.

(** The decimal text of an integral number, as [ToString] gives it below
    1e21 (from there on JavaScript prints an exponent). *)
Definition num_to_jsstring (n : Z) : jsstring :=
  lit (NilZero.string_of_int (Z.to_int n)).

Fixpoint join (sep : jsstring) (parts : list jsstring) : jsstring :=
  match parts with
  | [] => []
  | [p] => p
  | p :: ps => p ++ sep ++ join sep ps
  end.

(** [ToString], as a template literal applies it. *)
Fixpoint to_string (v : value) : jsstring :=
  match v with
  | VUndefined => lit "undefined"
  | VNull => lit "null"
  | VBool true => lit "true"
  | VBool false => lit "false"
  | VNum n => num_to_jsstring n
  | VStr s => s
  | VArr xs =>
      join (lit ",")
        (map (fun x => if nullish x then [] else to_string x) xs)
  | VObj _ => lit "[object Object]"
  end.

(** [v === n] for a number literal [n], [v === s] for a string literal. *)
Definition is_num (v : value) (n : Z) : bool :=
  match v with
  | VNum m => m =? n
  | _ => false
  end.

Definition is_str (v : value) (s : jsstring) : bool :=
  match v with
  | VStr t => jsstring_eqb t s
  | _ => false
  end.

Definition is_undefined (v : value) : bool :=
  match v with
  | VUndefined => true
  | _ => false
  end.

(** *** String methods *)

(** The code units [String.prototype.trim] strips: WhiteSpace and
    LineTerminator of ECMAScript. *)
Definition is_white_space (c : N) : bool :=
  ((9 <=? c) && (c <=? 13) || (c =? 32) || (c =? 160) || (c =? 5760)
   || (8192 <=? c) && (c <=? 8202) || (c =? 8232) || (c =? 8233)
   || (c =? 8239) || (c =? 8287) || (c =? 12288) || (c =? 65279))%N.

Fixpoint drop_while (p : N -> bool) (s : jsstring) : jsstring :=
  match s with
  | [] => []
  | c :: s' => if p c then drop_while p s' else s
  end.

Definition trim (s : jsstring) : jsstring :=
  rev (drop_while is_white_space (rev (drop_while is_white_space s))).

(** [v.trim()]: only a string has the method. *)
Definition call_trim (v : value) : outcome value :=
  match v with
  | VStr s => Return (VStr (trim s))
  | _ => Throw TypeError
  end.

(** [s.split(' ')]: the pieces between the spaces, never empty as a list. *)
Fixpoint split_on (sep : N) (s : jsstring) : list jsstring :=
  match s with
  | [] => [[]]
  | c :: s' =>
      if N.eqb c sep then [] :: split_on sep s'
      else match split_on sep s' with
           | [] => [[c]]
           | p :: ps => (c :: p) :: ps
           end
  end.

Definition space : N := 32%N.

Definition call_split_space (v : value) : outcome value :=
  match v with
  | VStr s => Return (VArr (map VStr (split_on space s)))
  | _ => Throw TypeError
  end.

(** ** Collaborators

    [./models], [./tradfri/connection], [./verifySignature] and the Slack web
    client are not part of [src/server.js]; the handlers reach them through
    the interface below.  A promise a collaborator returns is embedded by the
    [outcome] it settles with. *)

Record User : Type := mkUser {
  slackId : value;
  agreedToPolicy : bool;
  kudosCount : Z
}.

Record Neighborhood : Type := mkNeighborhood {
  name : jsstring;
  link : jsstring
}.

Record Models (DB : Type) : Type := mkModels {
  users_findBySlackId : value -> DB -> outcome User;
  user_setPolicyAgreementAndSave : User -> bool -> DB -> outcome User * DB;
  user_incrementKudosAndSave : User -> value -> DB -> outcome User * DB;
  neighborhoods_find : value -> DB -> outcome Neighborhood;
  neighborhoods_fuzzyFind : value -> DB -> outcome (list Neighborhood)
}.

(** The gateway as the device listing sees it: [getConnection()] settles with
    a handle whose [devices] mapping is read once the settle delay is over,
    given here by its entries in the order [for ... in] enumerates them.
    The web client: [views.open] and [axios.post] either resolve ([None]) or
    reject with a reason. *)
Record Services : Type := mkServices {
  getConnection : outcome (list (string * value));
  views_open : value -> option value;
  axios_post : value -> value -> option value
}.

(** An incoming slash-command request: the parsed body and the verdict of
    [signature.isVerified(req)]. *)
Record request : Type := mkRequest {
  req_body : value;
  req_verified : bool
}.

(** ** The world a handler runs in *)

Inductive logarg : Type :=
| LVal (v : value)
| LJson (v : value).   (* the text [JSON.stringify(v)] *)

Inductive console_call : Type :=
| ConsoleLog (args : list logarg)
| ConsoleError (e : exn).

Inductive http_call : Type :=
| ResJson (body : value)
| ResSend (body : option value)
| ResSendStatus (code : Z)
| NextCalled
| ViewsOpen (arg : value)
| AxiosPost (url : value) (body : value).

(** The callbacks a handler leaves behind for a later turn of the event
    loop, with the values they captured when they were created. *)
Inductive task : Type :=
| TosChain (id : value)
| NeighborhoodChain (key : value)
| KudosTimeout.

Record world (DB : Type) : Type := mkWorld {
  w_payload : value;                (* the event object, shared by reference *)
  w_responds : list value;          (* the calls of [respond], oldest first *)
  w_console : list console_call;
  w_http : list http_call;
  w_db : DB;
  w_timers : list task
}.

Section Monad.
Variable DB : Type.

Definition M (A : Type) : Type := world DB -> outcome A * world DB.

Definition ret {A} (a : A) : M A := fun w => (Return a, w).

Definition bind {A B} (m : M A) (k : A -> M B) : M B :=
  fun w =>
    match m w with
    | (Return a, w') => k a w'
    | (Throw e, w') => (Throw e, w')
    end.

Definition lift {A} (o : outcome A) : M A := fun w => (o, w).

(** [try { m } catch (e) { h e }], also [promise.catch(h)]. *)
Definition try_catch {A} (m : M A) (h : exn -> M A) : M A :=
  fun w =>
    match m w with
    | (Return a, w') => (Return a, w')
    | (Throw e, w') => h e w'
    end.

Definition read_payload : M value := fun w => (Return (w_payload w), w).

Definition write_payload (v : value) : M unit :=
  fun w => (Return tt,
            mkWorld v (w_responds w) (w_console w) (w_http w) (w_db w)
                    (w_timers w)).

Definition respond (msg : value) : M unit :=
  fun w => (Return tt,
            mkWorld (w_payload w) (w_responds w ++ [msg]) (w_console w)
                    (w_http w) (w_db w) (w_timers w)).

Definition console (c : console_call) : M unit :=
  fun w => (Return tt,
            mkWorld (w_payload w) (w_responds w) (w_console w ++ [c])
                    (w_http w) (w_db w) (w_timers w)).

Definition http (c : http_call) : M unit :=
  fun w => (Return tt,
            mkWorld (w_payload w) (w_responds w) (w_console w)
                    (w_http w ++ [c]) (w_db w) (w_timers w)).

Definition schedule (t : task) : M unit :=
  fun w => (Return tt,
            mkWorld (w_payload w) (w_responds w) (w_console w) (w_http w)
                    (w_db w) (w_timers w ++ [t])).

Definition clear_timers (w : world DB) : world DB :=
  mkWorld (w_payload w) (w_responds w) (w_console w) (w_http w) (w_db w) [].

(** A query of the persistence layer, and a call that also writes to it. *)
Definition db_read {A} (q : DB -> outcome A) : M A :=
  fun w => (q (w_db w), w).

Definition db_write {A} (q : DB -> outcome A * DB) : M A :=
  fun w =>
    let (r, db') := q (w_db w) in
    (r, mkWorld (w_payload w) (w_responds w) (w_console w) (w_http w) db'
                (w_timers w)).
End Monad.

Arguments ret {DB A} a.
Arguments lift {DB A} o.
Arguments read_payload {DB}.
Arguments write_payload {DB} v.
Arguments respond {DB} msg.
Arguments console {DB} c.
Arguments http {DB} c.
Arguments schedule {DB} t.

Notation "x <- m ;; k" := (bind m (fun x => k))
  (at level 61, m at next level, right associativity) : js_scope.
Notation "m ;; k" := (bind m (fun _ => k))
  (at level 61, right associativity) : js_scope.

Definition console_log {DB} (args : list logarg) : M DB unit :=
  console (ConsoleLog args).

Definition console_error {DB} (e : exn) : M DB unit :=
  console (ConsoleError e).

(** A reply [{ text: s }]. *)
Definition text_reply (s : jsstring) : value := VObj [("text", VStr s)].

(** ** Example interactive messages (constants of the source) *)

Definition interactiveButtons : value :=
  VObj [
    ("text", str "The terms of service for this app are _not really_ here: <https://unsplash.com/photos/bmmcfZqSjBU>");
    ("response_type", str "in_channel");
    ("attachments", VArr [
      VObj [
        ("text", str "Do you accept the terms of service?");
        ("callback_id", str "accept_tos");
        ("actions", VArr [
          VObj [("name", str "accept_tos"); ("text", str "Yes");
                ("value", str "accept"); ("type", str "button");
                ("style", str "primary")];
          VObj [("name", str "accept_tos"); ("text", str "No");
                ("value", str "deny"); ("type", str "button");
                ("style", str "danger")]])]])].

Definition interactiveMenu : value :=
  VObj [
    ("type", str "modal");
    ("submit", VObj [("type", str "plain_text"); ("text", str "Submit");
                     ("emoji", VBool true)]);
    ("blocks", VArr [
      VObj [
        ("type", str "input");
        ("element", VObj [("type", str "plain_text_input");
                          ("multiline", VBool true)]);
        ("label", VObj [("type", str "plain_text"); ("text", str "Label");
                        ("emoji", VBool true)])]])].

Definition dialog : value :=
  VObj [
    ("callback_id", str "kudos_submit");
    ("title", str "Give kudos");
    ("submit_label", str "Give");
    ("elements", VArr [
      VObj [("label", str "Teammate"); ("type", str "select");
            ("name", str "user"); ("data_source", str "users");
            ("placeholder", str "Teammate Name")];
      VObj [("label", str "Comment"); ("type", str "text");
            ("name", str "comment");
            ("placeholder", str "Thanks for helping me with my project!");
            ("hint", str "Describe why you think your teammate deserves kudos.")]])].

(** ** Helpers of the source *)

Definition comment_error : value :=
  VObj [("name", str "comment"); ("error", str "The comment cannot be empty")].

(** [validateKudosSubmission(submission)]: the [{ errors }] object, or
    [undefined] when there is nothing to report. *)
Definition validateKudosSubmission (submission : value) : outcome value :=
  let? comment := get submission "comment" in
  let? trimmed := call_trim comment in
  let errors := if negb (to_boolean trimmed) then [comment_error] else [] in
  if (0 <? Z.of_nat (List.length errors))
  then Return (VObj [("errors", VArr errors)])
  else Return VUndefined.

Definition formatNeighborhoodsAsOptions (neighborhoods : list Neighborhood)
  : value :=
  VObj [("options",
         VArr (map (fun n => VObj [("text", VStr (name n));
                                   ("value", VStr (name n))])
                   neighborhoods))].

(** ** Device listing *)

Definition on_off_text (v : value) : value :=
  if to_boolean v then str "On" else str "Off".

(** [printDeviceInfo(device)]: logs every device, returns a summary for a
    light and [undefined] otherwise. *)
Definition printDeviceInfo {DB} (device : value) : M DB value :=
  ty <- lift (get device "type") ;;
  if is_num ty 0 || is_num ty 4 then
    (* remote, sensor *)
    instanceId <- lift (get device "instanceId") ;;
    dname <- lift (get device "name") ;;
    deviceInfo <- lift (get device "deviceInfo") ;;
    battery <- lift (get deviceInfo "battery") ;;
    console_log [LVal instanceId; LVal dname;
                 LVal (VStr (lit "battery " ++ to_string battery ++ lit "%"))] ;;
    ret VUndefined
  else if is_num ty 2 then
    (* light *)
    lightList <- lift (get device "lightList") ;;
    lightInfo <- lift (get_index lightList 0) ;;
    console_log [LVal (str "TCL: printDeviceInfo -> lightInfo"); LVal lightInfo] ;;
    instanceId <- lift (get device "instanceId") ;;
    dname <- lift (get device "name") ;;
    onOff <- lift (get lightInfo "onOff") ;;
    spectrum <- lift (get lightInfo "spectrum") ;;
    dimmer <- lift (get lightInfo "dimmer") ;;
    color <- lift (get lightInfo "color") ;;
    colorTemperature <- lift (get lightInfo "colorTemperature") ;;
    let info := VObj [("instanceId", instanceId); ("name", dname);
                      ("onOff", onOff); ("spectrum", spectrum);
                      ("dimmer", dimmer); ("color", color);
                      ("colorTemperature", colorTemperature)] in
    instanceId' <- lift (get device "instanceId") ;;
    dname' <- lift (get device "name") ;;
    onOff' <- lift (get lightInfo "onOff") ;;
    console_log [LVal instanceId'; LVal dname'; LVal (on_off_text onOff');
                 LJson info] ;;
    ret info
  else if is_num ty 3 then
    (* plug *)
    instanceId <- lift (get device "instanceId") ;;
    dname <- lift (get device "name") ;;
    plugList <- lift (get device "plugList") ;;
    plug <- lift (get_index plugList 0) ;;
    onOff <- lift (get plug "onOff") ;;
    console_log [LVal instanceId; LVal dname; LVal (on_off_text onOff)] ;;
    ret VUndefined
  else
    instanceId <- lift (get device "instanceId") ;;
    dname <- lift (get device "name") ;;
    ty' <- lift (get device "type") ;;
    console_log [LVal instanceId; LVal dname; LVal (str "unknown type");
                 LVal ty'] ;;
    console_log [LVal device] ;;
    ret VUndefined.

Definition newline : jsstring := [10%N].

Definition welcome_block : value :=
  VObj [("type", str "section");
        ("text", VObj [("type", str "mrkdwn");
                       ("text", VStr (lit "*Welcome to Tr" ++ a_ring
                                      ++ lit "dbot*" ++ newline
                                      ++ lit "*Please choose a device:*"))])].

(** The modal [deviceInfo] with the blocks pushed so far. *)
Definition deviceInfo_modal (blocks : list value) : value :=
  VObj [("type", str "modal");
        ("title", VObj [("type", str "plain_text");
                        ("text", VStr (lit "Tr" ++ a_ring ++ lit "dbot"));
                        ("emoji", VBool true)]);
        ("blocks", VArr blocks)].

Definition mrkdwn_field (text : jsstring) : value :=
  VObj [("text", VStr text); ("type", str "mrkdwn")].

Definition textInput : value :=
  VObj [("type", str "input");
        ("element", VObj [("type", str "plain_text_input");
                          ("multiline", VBool true)]);
        ("label", VObj [("type", str "plain_text"); ("text", str "Label");
                        ("emoji", VBool true)])].

Definition divider : value := VObj [("type", str "divider")].

Definition basicInfo (dname : value) : value :=
  VObj [("type", str "section"); ("block_id", str "");
        ("text", VObj [("type", str "mrkdwn"); ("text", dname)])].

Definition currentInfo (instanceId onOff spectrum dimmer color : value)
  : value :=
  VObj [("type", str "section");
        ("fields", VArr [
           mrkdwn_field (lit "*Instance ID*" ++ newline ++ lit " "
                         ++ to_string instanceId);
           mrkdwn_field (lit "*On/Off*" ++ newline ++ lit " "
                         ++ to_string onOff);
           mrkdwn_field (lit "*Spectrum*" ++ newline ++ lit " "
                         ++ to_string spectrum);
           mrkdwn_field (lit "*Dimmer*" ++ newline ++ lit " "
                         ++ to_string dimmer);
           mrkdwn_field (lit "*Color*" ++ newline ++ lit " #"
                         ++ to_string color)])].

(** The four blocks one iteration of the loop pushes for a summary [info]:
    the name section, the fields section, the text input and the divider. *)
Definition device_blocks (info : value) : outcome (list value) :=
  let? dname := get info "name" in
  let? instanceId := get info "instanceId" in
  let? onOff := get info "onOff" in
  let? spectrum := get info "spectrum" in
  let? dimmer := get info "dimmer" in
  let? color := get info "color" in
  Return [basicInfo dname;
          currentInfo instanceId onOff spectrum dimmer color;
          textInput; divider].

(** The body of [for (const deviceId in tradfri.devices)], over the records
    still to visit and the blocks pushed so far. *)
Fixpoint device_loop {DB} (devices : list value) (blocks : list value)
  : M DB (list value) :=
  match devices with
  | [] => ret blocks
  | device :: rest =>
      info <- printDeviceInfo device ;;
      console_log [LVal (str "TCL: getAndPrintDevices -> info"); LVal info] ;;
      if negb (is_undefined info) then
        pushed <- lift (device_blocks info) ;;
        let blocks' := blocks ++ pushed in
        console_log [LVal (str "TCL: getAndPrintDevices -> deviceInfo");
                     LVal (deviceInfo_modal blocks')] ;;
        device_loop rest blocks'
      else device_loop rest blocks
  end.

(** [getAndPrintDevices()].  The first three statements,
    [await connection.getConnection()], [tradfri.observeDevices()] and
    [await delay(1000)], are one step here: [getConnection svc] is the
    device mapping as it stands after them, or the failure of the
    connection.  The subscription and the wait leave no trace in the
    [world]. *)
Definition getAndPrintDevices {DB} (svc : Services) : M DB value :=
  devices <- lift (getConnection svc) ;;
  console_log [LVal (VObj devices)] ;;
  blocks <- device_loop (map snd devices) [welcome_block] ;;
  ret (deviceInfo_modal blocks).

(** ** Reading and stripping the event *)

(** The event once [delete reply.attachments[0].actions] has run on
    [reply = payload.original_message]. *)
Definition without_actions (payload : value) : outcome value :=
  let? reply := get payload "original_message" in
  let? attachments := get reply "attachments" in
  let? first := get_index attachments 0 in
  let? first' := delete_prop first "actions" in
  Return (set_prop payload "original_message"
            (set_prop reply "attachments" (set_index attachments 0 first'))).

(** [payload.actions[0].selected_options[0].value]. *)
Definition selected_value (payload : value) : outcome value :=
  let? actions := get payload "actions" in
  let? action := get_index actions 0 in
  let? selected := get action "selected_options" in
  let? option0 := get_index selected 0 in
  get option0 "value".

(** ** Interactive message handlers *)

Section Handlers.
Variable DB : Type.
Variable models : Models DB.
Variable svc : Services.

Definition tos_error : value :=
  text_reply (lit "An error occurred while recording your agreement choice.").

Definition tos_accepted : jsstring :=
  lit "Thank you for agreeing to the terms of service".

Definition tos_denied : jsstring :=
  lit "You have denied the terms of service. You will no longer have access to this app.".

(** The first argument of the [console.log] that opens each handler. *)
Definition log_user_action (what : string) : M DB unit :=
  payload <- read_payload ;;
  user <- lift (get payload "user") ;;
  uname <- lift (get user "name") ;;
  team <- lift (get payload "team") ;;
  domain <- lift (get team "domain") ;;
  console_log [LVal (VStr (lit "The user " ++ to_string uname
                           ++ lit " in team " ++ to_string domain
                           ++ lit what))].

(** [const reply = payload.original_message;
     delete reply.attachments[0].actions; return reply;]
    [reply] is the event's own message: the deletion is written to the
    event, and the value returned is read from it. *)
Definition strip_and_return_original : M DB value :=
  payload <- read_payload ;;
  payload' <- lift (without_actions payload) ;;
  write_payload payload' ;;
  lift (get payload' "original_message").

(** [slackInteractions.action('accept_tos', ...)], up to its [return]. *)
Definition accept_tos : M DB value :=
  log_user_action " pressed a button" ;;
  payload <- read_payload ;;
  user <- lift (get payload "user") ;;
  id <- lift (get user "id") ;;
  schedule (TosChain id) ;;
  respond tos_error ;;
  strip_and_return_original.

(** The promise chain [accept_tos] starts:
    [findBySlackId(id).then(...).then(...).catch(...)]. *)
Definition tos_chain (id : value) : M DB unit :=
  try_catch
    (user <- db_read (users_findBySlackId models id) ;;
     payload <- read_payload ;;
     actions <- lift (get payload "actions") ;;
     action <- lift (get_index actions 0) ;;
     choice <- lift (get action "value") ;;
     user' <- db_write (user_setPolicyAgreementAndSave models user
                          (is_str choice (lit "accept"))) ;;
     let confirmation :=
       if agreedToPolicy user' then tos_accepted else tos_denied in
     respond (text_reply confirmation))
    (fun error =>
       console_error error ;;
       respond tos_error).

(** The options handler of [pick_sf_neighborhood]. *)
Definition pick_sf_neighborhood_options : M DB value :=
  log_user_action " has requested options" ;;
  payload <- read_payload ;;
  input <- lift (get payload "value") ;;
  try_catch
    (found <- db_read (neighborhoods_fuzzyFind models input) ;;
     ret (formatNeighborhoodsAsOptions found))
    (fun error =>
       console_error error ;;
       ret (VObj [("options", VArr [])])).

Definition neighborhood_error : value :=
  text_reply (lit "An error occurred while finding the neighborhood.").

(** [.action('pick_sf_neighborhood', ...)], up to its [return]. *)
Definition pick_sf_neighborhood : M DB value :=
  log_user_action " selected from a menu" ;;
  payload <- read_payload ;;
  key <- lift (selected_value payload) ;;
  schedule (NeighborhoodChain key) ;;
  strip_and_return_original.

Definition neighborhood_chain (key : value) : M DB unit :=
  try_catch
    (neighborhood <- db_read (neighborhoods_find models key) ;;
     payload <- read_payload ;;
     original <- lift (get payload "original_message") ;;
     text <- lift (get original "text") ;;
     respond (VObj [("text", text);
                    ("attachments", VArr [
                       VObj [("title", VStr (name neighborhood));
                             ("title_link", VStr (link neighborhood));
                             ("text", str "One of the most interesting neighborhoods in the city.")]])]))
    (fun error =>
       console_error error ;;
       respond neighborhood_error).

(** [slackInteractions.action({ type: 'dialog_submission' }, ...)]. *)
Definition dialog_submission : M DB value :=
  log_user_action " submitted a dialog" ;;
  payload <- read_payload ;;
  submission <- lift (get payload "submission") ;;
  errors <- lift (validateKudosSubmission submission) ;;
  if to_boolean errors then ret errors
  else schedule KudosTimeout ;; ret VUndefined.

Definition kudos_error : value :=
  text_reply (lit "An error occurred while incrementing kudos.").

Definition partialMessage (giver receiver : value) : jsstring :=
  lit "<@" ++ to_string giver ++ lit "> just gave kudos to <@"
  ++ to_string receiver ++ lit ">.".

Definition kudos_total (partial : jsstring) (count : Z) : value :=
  VObj [("text", VStr (partial ++ lit " That makes a total of "
                       ++ to_string (VNum count) ++ lit "! :balloon:"));
        ("replace_original", VBool true)].

(** The callback [dialog_submission] hands to [setTimeout]. *)
Definition kudos_timeout : M DB unit :=
  payload <- read_payload ;;
  user <- lift (get payload "user") ;;
  giver <- lift (get user "id") ;;
  submission <- lift (get payload "submission") ;;
  receiver <- lift (get submission "user") ;;
  let partial := partialMessage giver receiver in
  respond (text_reply partial) ;;
  submission' <- lift (get payload "submission") ;;
  id <- lift (get submission' "id") ;;
  try_catch
    (found <- db_read (users_findBySlackId models id) ;;
     submission'' <- lift (get payload "submission") ;;
     comment <- lift (get submission'' "comment") ;;
     found' <- db_write (user_incrementKudosAndSave models found comment) ;;
     respond (kudos_total partial (kudosCount found')))
    (fun error =>
       console_error error ;;
       respond kudos_error).

(** ** The event loop

    Once a handler has returned (or thrown), the callbacks it scheduled run
    in the order they were scheduled; what a callback throws is lost. *)
Definition run_task (t : task) : M DB unit :=
  match t with
  | TosChain id => tos_chain id
  | NeighborhoodChain key => neighborhood_chain key
  | KudosTimeout => kudos_timeout
  end.

Definition run_timers (w : world DB) : world DB :=
  fold_left (fun w' t => snd (run_task t w')) (w_timers w) (clear_timers w).

(** A handler, then everything it left for later: the value the handler
    returned and the world once the event is fully handled. *)
Definition handle_event (handler : M DB value) (w : world DB)
  : outcome value * world DB :=
  let (r, w') := handler w in (r, run_timers w').

(** ** Slash command *)

Definition command_name : jsstring := lit "/tr" ++ a_ring ++ lit "dbot".

Definition usage : value :=
  str "Use this command followed by `button`, `menu`, or `dialog`.".

(** The [dialog] branch: [res.send()], then [web.views.open(...)] with its
    two [catch]es. *)
Definition open_dialog (body : value) : M DB unit :=
  http (ResSend None) ;;
  trigger_id <- lift (get body "trigger_id") ;;
  let arg := VObj [("trigger_id", trigger_id);
                   ("view", VObj [("interactiveMenu", interactiveMenu)])] in
  http (ViewsOpen arg) ;;
  match views_open svc arg with
  | None => ret tt
  | Some error =>
      try_catch
        (url <- lift (get body "response_url") ;;
         message <- lift (get error "message") ;;
         let report :=
           text_reply (lit "An error occurred while opening the dialog: "
                       ++ to_string message) in
         http (AxiosPost url report) ;;
         match axios_post svc url report with
         | None => ret tt
         | Some reason => lift (Throw (Rejected reason))
         end)
        (fun e => console_error e)
  end.

(** [slackSlashCommand(req, res, next)]. *)
Definition slackSlashCommand (req : request) : M DB unit :=
  let body := req_body req in
  console_log [LVal (str "TCL: slackSlashCommand -> req"); LVal body] ;;
  command <- lift (get body "command") ;;
  text <- lift (get body "text") ;;
  if req_verified req && is_str command command_name then
    words <- lift (call_split_space text) ;;
    type <- lift (get_index words 0) ;;
    if is_str type (lit "button") then http (ResJson interactiveButtons)
    else if is_str type (lit "menu") then http (ResJson interactiveMenu)
    else if is_str type (lit "devices") then
      devices <- getAndPrintDevices svc ;;
      http (ResJson devices)
    else if is_str type (lit "dialog") then open_dialog body
    else http (ResSend (Some usage))
  else
    http (ResSendStatus 404) ;;
    http NextCalled.
End Handlers.

Arguments tos_chain {DB} models id.
Arguments neighborhood_chain {DB} models key.
Arguments pick_sf_neighborhood_options {DB} models.
Arguments kudos_timeout {DB} models.
Arguments run_task {DB} models t.
Arguments run_timers {DB} models w.
Arguments handle_event {DB} models handler w.
Arguments accept_tos {DB}.
Arguments pick_sf_neighborhood {DB}.
Arguments dialog_submission {DB}.
Arguments strip_and_return_original {DB}.
Arguments log_user_action {DB} what.
Arguments open_dialog {DB} svc body.
Arguments slackSlashCommand {DB} svc req.

(** The world in which an event arrives: nothing pushed, logged or scheduled
    yet. *)
Definition initial_world {DB} (db : DB) (payload : value) : world DB :=
  mkWorld payload [] [] [] db [].

(** ** An in-memory persistence layer *)

Record Store : Type := mkStore {
  store_users : list User;
  store_neighborhoods : list Neighborhood
}.

Definition lookup_failure : value := VObj [("name", str "LookupFailure")].

Definition has_id (id : value) (u : User) : bool :=
  match id, slackId u with
  | VStr s, VStr t => jsstring_eqb s t
  | _, _ => false
  end.

Definition save_user (u : User) (db : Store) : Store :=
  mkStore (map (fun u' => if has_id (slackId u) u' then u else u')
               (store_users db))
          (store_neighborhoods db).

(** Modelled from the spec: the persistence collaborator [./models], which is
    not under [src/].  [findUserById(id) -> User] looks the record up and
    fails with a lookup failure when there is none;
    [user.setPolicyAgreement(bool) -> User] sets the flag and persists;
    [user.incrementKudos(comment) -> User{kudosCount}] adds one to the counter
    and persists; [findNeighborhoodById(id) -> Neighborhood] resolves the
    value of an option, which [formatNeighborhoodsAsOptions] sets to the
    name; [fuzzyFindNeighborhoods(text) -> [Neighborhood]] keeps the records
    the matcher [fuzzy] accepts. *)
Definition memory_models (fuzzy : jsstring -> jsstring -> bool)
  : Models Store :=
  mkModels
    (fun id db =>
       match find (has_id id) (store_users db) with
       | Some u => Return u
       | None => Throw (Rejected lookup_failure)
       end)
    (fun u agreed db =>
       let u' := mkUser (slackId u) agreed (kudosCount u) in
       (Return u', save_user u' db))
    (fun u _comment db =>
       let u' := mkUser (slackId u) (agreedToPolicy u) (kudosCount u + 1) in
       (Return u', save_user u' db))
    (fun key db =>
       match find (fun n => is_str key (name n)) (store_neighborhoods db) with
       | Some n => Return n
       | None => Throw (Rejected lookup_failure)
       end)
    (fun text db =>
       match text with
       | VStr t =>
           Return (filter (fun n => fuzzy t (name n)) (store_neighborhoods db))
       | _ => Throw (Rejected lookup_failure)
       end).

Definition prefix_match : jsstring -> jsstring -> bool :=
  fix go (t n : jsstring) : bool :=
    match t, n with
    | [], _ => true
    | c :: t', d :: n' => N.eqb c d && go t' n'
    | _ :: _, [] => false
    end.

Definition models0 : Models Store := memory_models prefix_match.

(** ** Sample inputs *)

(** Raw device records as the gateway client delivers them. *)
Definition remote0 : value :=
  VObj [("type", VNum 0); ("instanceId", VNum 65536);
        ("name", str "Remote"); ("deviceInfo", VObj [("battery", VNum 87)])].

Definition sensor0 : value :=
  VObj [("type", VNum 4); ("instanceId", VNum 65540);
        ("name", str "Motion sensor");
        ("deviceInfo", VObj [("battery", VNum 34)])].

Definition light0 : value :=
  VObj [("type", VNum 2); ("instanceId", VNum 65537);
        ("name", str "Desk lamp");
        ("lightList", VArr [VObj [("onOff", VBool true);
                                  ("spectrum", str "white");
                                  ("dimmer", VNum 80);
                                  ("color", str "f1e0b5");
                                  ("colorTemperature", VNum 50)]])].

Definition light_without_channel : value :=
  VObj [("type", VNum 2); ("instanceId", VNum 65541);
        ("name", str "Spare bulb"); ("lightList", VArr [])].

Definition plug0 : value :=
  VObj [("type", VNum 3); ("instanceId", VNum 65538);
        ("name", str "Outlet");
        ("plugList", VArr [VObj [("onOff", VBool false)]])].

Definition blind0 : value :=
  VObj [("type", VNum 7); ("instanceId", VNum 65539);
        ("name", str "Blind")].

Definition gateway_of (devices : list (string * value)) : Services :=
  mkServices (Return devices) (fun _ => None) (fun _ _ => None).


(** What one iteration of the listing loop pushes for the value
    [printDeviceInfo] returned. *)
Definition rendered (info : value) : list value :=
  if is_undefined info then []
  else [basicInfo (prop info "name");
        currentInfo (prop info "instanceId") (prop info "onOff")
                    (prop info "spectrum") (prop info "dimmer")
                    (prop info "color");
        textInput; divider].


(** The world after one more call of the console. *)
Definition logged {DB} (w : world DB) (c : console_call) : world DB :=
  snd (console c w).

(** The object [info] that [printDeviceInfo] builds for a light. *)
Definition light_summary (device : value) : value :=
  let lightInfo := elem (prop device "lightList") 0 in
  VObj [("instanceId", prop device "instanceId");
        ("name", prop device "name");
        ("onOff", prop lightInfo "onOff");
        ("spectrum", prop lightInfo "spectrum");
        ("dimmer", prop lightInfo "dimmer");
        ("color", prop lightInfo "color");
        ("colorTemperature", prop lightInfo "colorTemperature")].

(** A gateway with one device of each kind, in the order [for ... in]
    enumerates the instance ids. *)
Definition home : list (string * value) :=
  [("65536", remote0); ("65537", light0); ("65538", plug0); ("65539", blind0)].

(** A world with no event, for the code that does not read one. *)
Definition idle : world unit := initial_world tt VUndefined.


(** Events as the interactive-message adapter delivers them. *)
Definition ann : value := VObj [("id", str "U1"); ("name", str "ann")].

Definition acme : value := VObj [("id", str "T1"); ("domain", str "acme")].

(** A press of the [Yes] button of [interactiveButtons]. *)
Definition tos_event : value :=
  VObj [("type", str "interactive_message");
        ("callback_id", str "accept_tos");
        ("user", ann); ("team", acme);
        ("actions", VArr [VObj [("name", str "accept_tos");
                                ("type", str "button");
                                ("value", str "accept")]]);
        ("original_message", interactiveButtons)].

(** The same event once the handler has run. *)
Definition tos_event_stripped : value :=
  VObj [("type", str "interactive_message");
        ("callback_id", str "accept_tos");
        ("user", ann); ("team", acme);
        ("actions", VArr [VObj [("name", str "accept_tos");
                                ("type", str "button");
                                ("value", str "accept")]]);
        ("original_message",
         VObj [
           ("text", str "The terms of service for this app are _not really_ here: <https://unsplash.com/photos/bmmcfZqSjBU>");
           ("response_type", str "in_channel");
           ("attachments", VArr [
              VObj [("text", str "Do you accept the terms of service?");
                    ("callback_id", str "accept_tos")]])])].

(** A selection in a neighborhood menu. *)
Definition menu_event : value :=
  VObj [("type", str "interactive_message");
        ("callback_id", str "pick_sf_neighborhood");
        ("user", ann); ("team", acme);
        ("actions", VArr [VObj [("name", str "neighborhood");
                                ("selected_options",
                                 VArr [VObj [("value", str "Mission")]])]]);
        ("original_message",
         VObj [("text", str "Where do you live?");
               ("attachments", VArr [
                  VObj [("text", str "Pick a neighborhood");
                        ("callback_id", str "pick_sf_neighborhood");
                        ("actions", VArr [
                           VObj [("name", str "neighborhood");
                                 ("type", str "select");
                                 ("data_source", str "external")]])]])])].

(** The submission of the [dialog]: its fields are named after the elements
    of the dialog, [user] and [comment]. *)
Definition kudos_event : value :=
  VObj [("type", str "dialog_submission");
        ("callback_id", str "kudos_submit");
        ("user", ann); ("team", acme);
        ("submission", VObj [("user", str "U2");
                             ("comment", str "great work")])].

(** The same submission with a field [id] next to [user]. *)
Definition kudos_event_with_id : value :=
  VObj [("type", str "dialog_submission");
        ("callback_id", str "kudos_submit");
        ("user", ann); ("team", acme);
        ("submission", VObj [("id", str "U2"); ("user", str "U2");
                             ("comment", str "great work")])].

(** A store in which the teammate [U2] has four kudos. *)
Definition store0 : Store :=
  mkStore [mkUser (str "U1") false 0; mkUser (str "U2") false 4]
          [mkNeighborhood (lit "Mission") (lit "https://example.com/mission")].


(** The line each handler logs first. *)
Definition opening_log (payload : value) (what : string) : console_call :=
  ConsoleLog [LVal (VStr (lit "The user "
                          ++ to_string (prop (prop payload "user") "name")
                          ++ lit " in team "
                          ++ to_string (prop (prop payload "team") "domain")
                          ++ lit what))].

(** [menu_event] once the handler has run. *)
Definition menu_event_stripped : value :=
  VObj [("type", str "interactive_message");
        ("callback_id", str "pick_sf_neighborhood");
        ("user", ann); ("team", acme);
        ("actions", VArr [VObj [("name", str "neighborhood");
                                ("selected_options",
                                 VArr [VObj [("value", str "Mission")]])]]);
        ("original_message",
         VObj [("text", str "Where do you live?");
               ("attachments", VArr [
                  VObj [("text", str "Pick a neighborhood");
                        ("callback_id", str "pick_sf_neighborhood")]])])].

(** The last reply of the kudos callback, from what the persistence layer
    answers for the id it was asked about. *)
Definition kudos_final {DB} (models : Models DB) (db : DB)
  (id comment : value) (partial : jsstring) : value :=
  match users_findBySlackId models id db with
  | Return found =>
      match fst (user_incrementKudosAndSave models found comment db) with
      | Return found' => kudos_total partial (kudosCount found')
      | Throw _ => kudos_error
      end
  | Throw _ => kudos_error
  end.


(** The first word of a text: what stands before its first space. *)
Fixpoint before_space (s : jsstring) : jsstring :=
  match s with
  | [] => []
  | c :: s' => if N.eqb c space then [] else c :: before_space s'
  end.

(** A slash-command request for [text], signed or not. *)
Definition slash_request (command text : jsstring) (verified : bool)
  : request :=
  mkRequest (VObj [("command", VStr command); ("text", VStr text);
                   ("trigger_id", str "13345224609.738474920.8088930838d88f008e0");
                   ("response_url", str "https://hooks.slack.com/commands/1234/5678")])
            verified.


(** When [printDeviceInfo] finds what it reads: the sub-record of the
    [case] the device's type selects is there. *)
Definition well_formed (device : value) : bool :=
  let ty := prop device "type" in
  if is_num ty 0 || is_num ty 4 then
    negb (nullish (prop device "deviceInfo"))
  else if is_num ty 2 then
    negb (nullish (prop device "lightList"))
    && negb (nullish (elem (prop device "lightList") 0))
  else if is_num ty 3 then
    negb (nullish (prop device "plugList"))
    && negb (nullish (elem (prop device "plugList") 0))
  else true.

(** The [case] of a light. *)
Definition is_light (device : value) : bool :=
  is_num (prop device "type") 2.

(** The option list the options handler answers with. *)
Definition options_of (names : list jsstring) : value :=
  VObj [("options",
         VArr (map (fun n => VObj [("text", VStr n); ("value", VStr n)])
                   names))].


(** [payload.actions[0].value], the value of the button pressed. *)
Definition pressed_value (payload : value) : outcome value :=
  let? actions := get payload "actions" in
  let? action := get_index actions 0 in
  get action "value".

(** The message [pick_sf_neighborhood] pushes for a neighborhood. *)
Definition neighborhood_reply (text : value) (n : Neighborhood) : value :=
  VObj [("text", text);
        ("attachments", VArr [
           VObj [("title", VStr (name n));
                 ("title_link", VStr (link n));
                 ("text", str "One of the most interesting neighborhoods in the city.")]])].


(** The argument [open_dialog] passes to [web.views.open], and the message
    it posts to the response url when that call fails with [error]. *)
Definition views_open_arg (trigger_id : value) : value :=
  VObj [("trigger_id", trigger_id);
        ("view", VObj [("interactiveMenu", interactiveMenu)])].

Definition dialog_report (error : value) : value :=
  text_reply (lit "An error occurred while opening the dialog: "
              ++ to_string (prop error "message")).

(** The calls the [dialog] branch makes, and the errors it logs, from the
    trigger id and the response url of the request. *)
Definition dialog_calls (svc : Services) (trigger_id url : value)
  : list http_call :=
  ResSend None
  :: ViewsOpen (views_open_arg trigger_id)
  :: match views_open svc (views_open_arg trigger_id) with
     | None => []
     | Some error =>
         if nullish error then [] else [AxiosPost url (dialog_report error)]
     end.

Definition dialog_errors (svc : Services) (trigger_id url : value)
  : list console_call :=
  match views_open svc (views_open_arg trigger_id) with
  | None => []
  | Some error =>
      if nullish error then [ConsoleError TypeError]
      else match axios_post svc url (dialog_report error) with
           | None => []
           | Some reason => [ConsoleError (Rejected reason)]
           end
  end.


(** What Express sends for a call on [res].  [res.json(v)] sends the JSON
    text of [v]; [res.send()] sends no body and [res.send(b)] sends [b];
    [res.sendStatus(code)] sets the status and sends the status text of the
    code as the body ([statuses.message[code]], or the code in decimal when
    the table has no entry).  Of the table only the entry of 404 is kept,
    the one code the program sends. *)
Definition status_text (code : Z) : jsstring :=
  if code =? 404 then lit "Not Found" else num_to_jsstring code.

Definition response_body (c : http_call) : option value :=
  match c with
  | ResJson body => Some body
  | ResSend body => body
  | ResSendStatus code => Some (VStr (status_text code))
  | NextCalled | ViewsOpen _ | AxiosPost _ _ => None
  end.


(** ** Basic facts about the embedding *)

Lemma get_ok (v : value) (k : string) :
  nullish v = false -> get v k = Return (prop v k).
Proof. unfold get. intros ->. reflexivity. Qed.

Lemma get_index_ok (v : value) (i : nat) :
  nullish v = false -> get_index v i = Return (elem v i).
Proof. unfold get_index. intros ->. reflexivity. Qed.

Lemma prop_VStr_not_nullish (v : value) (k : string) (s : jsstring) :
  prop v k = VStr s -> nullish v = false.
Proof. destruct v; simpl; congruence. Qed.

Lemma drop_while_all (p : N -> bool) (s : jsstring) :
  forallb p s = true -> drop_while p s = [].
Proof.
  induction s as [|c s IH]; simpl; [reflexivity|].
  destruct (p c); simpl; [exact IH | discriminate].
Qed.

Lemma trim_white_space (s : jsstring) :
  forallb is_white_space s = true -> trim s = [].
Proof.
  intros H. unfold trim. rewrite (drop_while_all _ _ H). reflexivity.
Qed.

Lemma drop_while_head (p : N -> bool) (s : jsstring) (c : N) (s' : jsstring) :
  drop_while p s = c :: s' -> p c = false.
Proof.
  induction s as [|d s IH]; simpl; [discriminate|].
  destruct (p d) eqn:E; [exact IH|].
  intros H. injection H as -> _. exact E.
Qed.

(** [trim] leaves nothing exactly when every code unit is white space. *)
Lemma trim_empty_iff (s : jsstring) :
  trim s = [] <-> forallb is_white_space s = true.
Proof.
  split; [|apply trim_white_space].
  unfold trim. intros H.
  assert (E : drop_while is_white_space (rev (drop_while is_white_space s)) = []).
  { rewrite <- (rev_involutive (drop_while _ (rev _))). rewrite H. reflexivity. }
  assert (E' : drop_while is_white_space s = []).
  { destruct (drop_while is_white_space s) as [|c s'] eqn:D; [reflexivity|].
    exfalso. pose proof (drop_while_head _ _ D) as Hc.
    simpl in E.
    assert (F : forallb is_white_space (rev s' ++ [c]) = true).
    { clear -E. induction (rev s' ++ [c]) as [|x l IH]; simpl in *; [reflexivity|].
      destruct (is_white_space x); [auto | discriminate]. }
    rewrite forallb_app in F. simpl in F. rewrite Hc in F.
    rewrite andb_false_r in F. discriminate. }
  clear -E'. induction s as [|c s IH]; simpl in *; [reflexivity|].
  destruct (is_white_space c); [auto | discriminate].
Qed.

Lemma prop_not_nullish (v : value) (k : string) :
  nullish (prop v k) = false -> nullish v = false.
Proof. destruct v; simpl; congruence. Qed.

(** Running a handler one statement at a time: the monad is unfolded, the
    property reads that cannot throw are resolved. *)
Ltac js_unfold :=
  cbv beta iota zeta delta
    [bind lift ret try_catch read_payload write_payload respond console http
     schedule db_read db_write console_log console_error log_user_action
     initial_world clear_timers fst snd
     w_payload w_responds w_console w_http w_db w_timers].

Ltac js_step :=
  first
    [ rewrite get_ok by (assumption || reflexivity
                         || (eapply prop_not_nullish; eassumption)
                         || (eapply prop_VStr_not_nullish; eassumption))
    | rewrite get_index_ok by (assumption || reflexivity
                         || (eapply prop_not_nullish; eassumption)) ];
  cbv beta iota.

Ltac js_run := js_unfold; repeat js_step.

(** ** Kudos validation *)

Lemma validateKudosSubmission_string (submission : value) (s : jsstring) :
  prop submission "comment" = VStr s ->
  validateKudosSubmission submission =
  Return (if match trim s with [] => true | _ => false end
          then VObj [("errors", VArr [comment_error])]
          else VUndefined).
Proof.
  intros H. unfold validateKudosSubmission.
  rewrite get_ok by (eapply prop_VStr_not_nullish; eassumption).
  rewrite H. simpl. destruct (trim s); reflexivity.
Qed.

(** C10: [validateKudosSubmission] returns only for a submission whose
    comment is a string; for a submission without a [comment] field it throws
    a [TypeError] instead of returning a validation-error reply. *)
Theorem validateKudosSubmission_needs_string_comment (submission : value) :
  nullish submission = false ->
  (prop submission "comment" = VUndefined ->
   validateKudosSubmission submission = Throw TypeError)
  /\ ((exists r, validateKudosSubmission submission = Return r)
      <-> (exists s, prop submission "comment" = VStr s)).
Proof.
  intros Hn. split.
  - intros H. unfold validateKudosSubmission.
    rewrite get_ok by assumption. rewrite H. reflexivity.
  - split.
    + intros [r Hr]. unfold validateKudosSubmission in Hr.
      rewrite get_ok in Hr by assumption.
      destruct (prop submission "comment") as [| | | |s| |];
        simpl in Hr; try discriminate.
      exists s. reflexivity.
    + intros [s Hs]. rewrite (validateKudosSubmission_string _ Hs).
      eexists. reflexivity.
Qed.

Lemma validateKudosSubmission_needs_string_comment_witness :
  nullish (VObj [("user", str "U2")]) = false
  /\ validateKudosSubmission (VObj [("user", str "U2")]) = Throw TypeError.
Proof.
  split; [reflexivity|].
  apply (proj1 (validateKudosSubmission_needs_string_comment
                  (VObj [("user", str "U2")]) eq_refl)).
  reflexivity.
Defined.

(** ** Kudos dialog: blank comment *)

(** C6: a kudos submission whose comment is empty or consists of white space
    only is answered synchronously by the validation errors, with exactly one
    error, named [comment]; nothing is pushed and nothing is scheduled. *)
Theorem dialog_submission_blank_comment
  (DB : Type) (models : Models DB) (db : DB) (payload : value) (s : jsstring) :
  nullish (prop payload "user") = false ->
  nullish (prop payload "team") = false ->
  prop (prop payload "submission") "comment" = VStr s ->
  forallb is_white_space s = true ->
  let w := initial_world db payload in
  fst (handle_event models dialog_submission w)
  = Return (VObj [("errors",
                   VArr [VObj [("name", str "comment");
                               ("error", str "The comment cannot be empty")]])])
  /\ w_timers (snd (dialog_submission w)) = []
  /\ w_responds (snd (handle_event models dialog_submission w)) = [].
Proof.
  intros Hu Ht Hc Hs w.
  assert (E : dialog_submission w
              = (Return (VObj [("errors", VArr [comment_error])]),
                 mkWorld payload []
                   [ConsoleLog
                      [LVal (VStr (lit "The user "
                                   ++ to_string (prop (prop payload "user") "name")
                                   ++ lit " in team "
                                   ++ to_string (prop (prop payload "team") "domain")
                                   ++ lit " submitted a dialog"))]]
                   [] db [])).
  { unfold dialog_submission, w. js_run.
    rewrite (validateKudosSubmission_string _ Hc).
    rewrite (trim_white_space _ Hs). reflexivity. }
  unfold handle_event. rewrite E. cbn. auto.
Qed.

Lemma dialog_submission_blank_comment_witness :
  let payload :=
    VObj [("type", str "dialog_submission");
          ("user", VObj [("id", str "U1"); ("name", str "ann")]);
          ("team", VObj [("domain", str "acme")]);
          ("submission", VObj [("user", str "U2");
                               ("comment", VStr (lit "  " ++ [9%N; 160%N]))])] in
  w_responds (snd (handle_event models0 dialog_submission
                     (initial_world (mkStore [] []) payload))) = [].
Proof.
  intros payload.
  apply (dialog_submission_blank_comment models0 (mkStore [] []) payload
           (s := lit "  " ++ [9%N; 160%N]));
    reflexivity.
Defined.

(** ** Device summaries *)

Section Devices.
Variable DB : Type.
Implicit Types (w : world DB) (device info : value).

Lemma printDeviceInfo_battery device w :
  nullish device = false ->
  is_num (prop device "type") 0 || is_num (prop device "type") 4 = true ->
  nullish (prop device "deviceInfo") = false ->
  printDeviceInfo device w
  = (Return VUndefined,
     logged w (ConsoleLog
                 [LVal (prop device "instanceId"); LVal (prop device "name");
                  LVal (VStr (lit "battery "
                              ++ to_string (prop (prop device "deviceInfo")
                                                 "battery")
                              ++ lit "%"))])).
Proof.
  intros Hd Hty Hi. unfold printDeviceInfo, logged. js_run.
  rewrite Hty. js_run. reflexivity.
Qed.

Lemma printDeviceInfo_plug device w :
  nullish device = false ->
  is_num (prop device "type") 3 = true ->
  nullish (prop device "plugList") = false ->
  nullish (elem (prop device "plugList") 0) = false ->
  printDeviceInfo device w
  = (Return VUndefined,
     logged w (ConsoleLog
                 [LVal (prop device "instanceId"); LVal (prop device "name");
                  LVal (on_off_text
                          (prop (elem (prop device "plugList") 0) "onOff"))])).
Proof.
  intros Hd Hty Hl Hp. unfold printDeviceInfo, logged. js_run.
  destruct (prop device "type") as [| | |n| | |]; try discriminate.
  simpl in Hty. apply Z.eqb_eq in Hty. subst n. simpl. js_run. reflexivity.
Qed.

Lemma printDeviceInfo_light_run device w :
  is_num (prop device "type") 2 = true ->
  nullish (prop device "lightList") = false ->
  nullish (elem (prop device "lightList") 0) = false ->
  printDeviceInfo device w
  = (Return (light_summary device),
     logged
       (logged w (ConsoleLog [LVal (str "TCL: printDeviceInfo -> lightInfo");
                              LVal (elem (prop device "lightList") 0)]))
       (ConsoleLog
          [LVal (prop device "instanceId"); LVal (prop device "name");
           LVal (on_off_text
                   (prop (elem (prop device "lightList") 0) "onOff"));
           LJson (light_summary device)])).
Proof.
  intros Hty Hl Hc. unfold printDeviceInfo, logged.
  assert (Hd : nullish device = false).
  { destruct device; try reflexivity; discriminate. }
  js_run.
  destruct (prop device "type") as [| | |n| | |]; try discriminate.
  simpl in Hty. apply Z.eqb_eq in Hty. subst n. simpl. js_run. reflexivity.
Qed.

End Devices.

(** ** The listing loop *)

Section Listing.
Variable DB : Type.
Implicit Types (w : world DB) (device info : value).

Ltac split_cases :=
  unfold printDeviceInfo, get, get_index;
  cbv beta iota zeta delta [bind lift ret console console_log];
  repeat (match goal with
          | |- context [nullish ?v] => destruct (nullish v)
          | |- context [is_num ?v ?n] => destruct (is_num v n)
          end; cbv beta iota delta [orb]).

(** The value [printDeviceInfo] returns does not depend on the world. *)
Lemma printDeviceInfo_fst_indep device w w' :
  fst (printDeviceInfo device w) = fst (printDeviceInfo device w').
Proof. split_cases; reflexivity. Qed.

(** It is [undefined], or the summary of a light. *)
Lemma printDeviceInfo_returns device w info :
  fst (printDeviceInfo device w) = Return info ->
  info = VUndefined \/ info = light_summary device.
Proof.
  unfold light_summary. split_cases; cbn [fst]; intros H;
    try discriminate H; injection H as <-; auto.
Qed.

Lemma device_blocks_rendered device :
  device_blocks (light_summary device)
  = Return (rendered (light_summary device)).
Proof. reflexivity. Qed.

(** One iteration of the loop. *)
Lemma device_loop_cons device rest blocks w :
  device_loop (device :: rest) blocks w
  = match printDeviceInfo device w with
    | (Return info, w1) =>
        let w2 :=
          logged w1 (ConsoleLog [LVal (str "TCL: getAndPrintDevices -> info");
                                 LVal info]) in
        if is_undefined info then device_loop rest blocks w2
        else match device_blocks info with
             | Return pushed =>
                 device_loop rest (blocks ++ pushed)
                   (logged w2
                      (ConsoleLog
                         [LVal (str "TCL: getAndPrintDevices -> deviceInfo");
                          LVal (deviceInfo_modal (blocks ++ pushed))]))
             | Throw e => (Throw e, w2)
             end
    | (Throw e, w1) => (Throw e, w1)
    end.
Proof.
  cbn [device_loop]. unfold bind at 1.
  destruct (printDeviceInfo device w) as [[info|e] w1]; [|reflexivity].
  unfold logged. js_unfold.
  destruct (is_undefined info); [reflexivity|]. cbv beta iota delta [negb].
  destruct (device_blocks info); reflexivity.
Qed.

Lemma device_loop_fst_indep (devices : list value) :
  forall blocks w w',
    fst (device_loop devices blocks w) = fst (device_loop devices blocks w').
Proof.
  induction devices as [|device rest IH]; intros blocks w w'; [reflexivity|].
  rewrite !device_loop_cons.
  pose proof (printDeviceInfo_fst_indep device w w') as E.
  destruct (printDeviceInfo device w) as [r w1].
  destruct (printDeviceInfo device w') as [r' w1'].
  simpl in E. subst r'. destruct r as [info|e]; [|reflexivity].
  cbv zeta. destruct (is_undefined info); [apply IH|].
  destruct (device_blocks info); [apply IH | reflexivity].
Qed.



Lemma device_loop_blocks (devices infos : list value) w0 :
  Forall2 (fun device info => fst (printDeviceInfo device w0) = Return info)
          devices infos ->
  forall blocks w,
    fst (device_loop devices blocks w)
    = Return (blocks ++ flat_map rendered infos).
Proof.
  induction 1 as [|device info devices infos Hd _ IH]; intros blocks w.
  - simpl. rewrite app_nil_r. reflexivity.
  - rewrite device_loop_cons. cbn [flat_map].
    rewrite (printDeviceInfo_fst_indep device w0 w) in Hd.
    pose proof (printDeviceInfo_returns device w Hd) as Hinfo.
    destruct (printDeviceInfo device w) as [r w1]. simpl in Hd. subst r.
    cbv zeta. destruct Hinfo as [-> | ->].
    + simpl is_undefined. cbv iota. apply IH.
    + simpl is_undefined. cbv iota. rewrite device_blocks_rendered.
      rewrite IH, <- app_assoc. reflexivity.
Qed.

Lemma getAndPrintDevices_run svc devices w :
  getConnection svc = Return devices ->
  getAndPrintDevices svc w
  = match device_loop (map snd devices) [welcome_block]
            (logged w (ConsoleLog [LVal (VObj devices)])) with
    | (Return blocks, w') => (Return (deviceInfo_modal blocks), w')
    | (Throw e, w') => (Throw e, w')
    end.
Proof.
  intros Hc. unfold getAndPrintDevices. rewrite Hc. reflexivity.
Qed.

Lemma getAndPrintDevices_blocks svc devices infos w :
  getConnection svc = Return devices ->
  Forall2 (fun device info => fst (printDeviceInfo device w) = Return info)
          (map snd devices) infos ->
  fst (getAndPrintDevices svc w)
  = Return (deviceInfo_modal (welcome_block :: flat_map rendered infos)).
Proof.
  intros Hc Hall. rewrite (getAndPrintDevices_run _ w Hc).
  pose proof (device_loop_blocks w Hall [welcome_block]
                (logged w (ConsoleLog [LVal (VObj devices)]))) as E.
  destruct (device_loop (map snd devices) [welcome_block] _) as [r w2].
  simpl in E. subst r. reflexivity.
Qed.

End Listing.

(** ** Claims about [printDeviceInfo] and the listing *)

(** C2, as the code has it: for a remote or a sensor whose [deviceInfo] is
    present, and for a plug whose first plug channel is present,
    [printDeviceInfo] returns [undefined]; the battery percentage, or the
    on/off state of the first plug channel, is written to the console with
    the instance id and the name, and to nothing else. *)
Theorem printDeviceInfo_telemetry_is_only_logged
  (DB : Type) (device : value) (w : world DB) :
  nullish device = false ->
  (is_num (prop device "type") 0 || is_num (prop device "type") 4 = true ->
   nullish (prop device "deviceInfo") = false ->
   printDeviceInfo device w
   = (Return VUndefined,
      logged w (ConsoleLog
                  [LVal (prop device "instanceId"); LVal (prop device "name");
                   LVal (VStr (lit "battery "
                               ++ to_string (prop (prop device "deviceInfo")
                                                  "battery")
                               ++ lit "%"))])))
  /\ (is_num (prop device "type") 3 = true ->
      nullish (prop device "plugList") = false ->
      nullish (elem (prop device "plugList") 0) = false ->
      printDeviceInfo device w
      = (Return VUndefined,
         logged w (ConsoleLog
                     [LVal (prop device "instanceId");
                      LVal (prop device "name");
                      LVal (if to_boolean
                                 (prop (elem (prop device "plugList") 0) "onOff")
                            then str "On" else str "Off")]))).
Proof.
  intros Hd. split.
  - intros Hty Hi. apply printDeviceInfo_battery; assumption.
  - intros Hty Hl Hp. apply printDeviceInfo_plug; assumption.
Qed.

Lemma printDeviceInfo_telemetry_is_only_logged_witness :
  fst (printDeviceInfo sensor0 idle) = Return VUndefined
  /\ fst (printDeviceInfo plug0 idle) = Return VUndefined.
Proof.
  split.
  - rewrite (proj1 (printDeviceInfo_telemetry_is_only_logged sensor0 idle
                      eq_refl) eq_refl eq_refl).
    reflexivity.
  - rewrite (proj2 (printDeviceInfo_telemetry_is_only_logged plug0 idle
                      eq_refl) eq_refl eq_refl eq_refl).
    reflexivity.
Defined.

(** C2 as stated fails: for a remote with a battery at 87 percent, and for a
    plug that is off, [printDeviceInfo] returns no summary at all. *)
Lemma printDeviceInfo_no_summary_for_remote_or_plug :
  ~ (exists info, fst (printDeviceInfo remote0 idle) = Return info
                  /\ is_undefined info = false)
  /\ ~ (exists info, fst (printDeviceInfo plug0 idle) = Return info
                     /\ is_undefined info = false).
Proof.
  split; intros [info [H U]]; vm_compute in H; injection H as <-;
    discriminate U.
Qed.

(** C4, as the code has it: for a light whose first light channel is present,
    [printDeviceInfo] returns an object made of the device's instance id and
    name and of the [onOff], [spectrum], [dimmer], [color] and
    [colorTemperature] of that channel, each one set exactly when the channel
    provides it; the object has no other field. *)
Theorem printDeviceInfo_light_summary
  (DB : Type) (device : value) (w : world DB) :
  is_num (prop device "type") 2 = true ->
  nullish (prop device "lightList") = false ->
  nullish (elem (prop device "lightList") 0) = false ->
  let lightInfo := elem (prop device "lightList") 0 in
  fst (printDeviceInfo device w)
  = Return (VObj [("instanceId", prop device "instanceId");
                  ("name", prop device "name");
                  ("onOff", prop lightInfo "onOff");
                  ("spectrum", prop lightInfo "spectrum");
                  ("dimmer", prop lightInfo "dimmer");
                  ("color", prop lightInfo "color");
                  ("colorTemperature", prop lightInfo "colorTemperature")]).
Proof.
  intros Hty Hl Hc lightInfo.
  rewrite (printDeviceInfo_light_run device w Hty Hl Hc). reflexivity.
Qed.

Lemma printDeviceInfo_light_summary_witness :
  fst (printDeviceInfo light0 idle)
  = Return (VObj [("instanceId", VNum 65537); ("name", str "Desk lamp");
                  ("onOff", VBool true); ("spectrum", str "white");
                  ("dimmer", VNum 80); ("color", str "f1e0b5");
                  ("colorTemperature", VNum 50)]).
Proof.
  exact (printDeviceInfo_light_summary light0 idle eq_refl eq_refl eq_refl).
Defined.

(** C4 as stated fails: the summary of a light has no [kind] field, and a
    light record without a light channel yields a [TypeError], not a
    summary. *)
Lemma printDeviceInfo_light_has_no_kind :
  ~ (exists info, fst (printDeviceInfo light0 idle) = Return info
                  /\ prop info "kind" = str "light")
  /\ fst (printDeviceInfo light_without_channel idle) = Throw TypeError.
Proof.
  split; [|reflexivity].
  intros [info [H K]]. vm_compute in H. injection H as <-.
  vm_compute in K. discriminate K.
Qed.



(** C7, as the code has it: after the welcome section, the listing holds,
    for each device in enumeration order, the four blocks of the value
    [printDeviceInfo] returned for it (name section, fields section, text
    input, divider), and no block where that value is [undefined]. *)
Theorem listing_has_four_blocks_per_summary
  (DB : Type) (svc : Services) (devices : list (string * value))
  (infos : list value) (w : world DB) :
  getConnection svc = Return devices ->
  Forall2 (fun device info => fst (printDeviceInfo device w) = Return info)
          (map snd devices) infos ->
  fst (getAndPrintDevices svc w)
  = Return (deviceInfo_modal
              (welcome_block
               :: flat_map
                    (fun info =>
                       if is_undefined info then []
                       else [basicInfo (prop info "name");
                             currentInfo (prop info "instanceId")
                                         (prop info "onOff")
                                         (prop info "spectrum")
                                         (prop info "dimmer")
                                         (prop info "color");
                             textInput; divider])
                    infos)).
Proof. apply getAndPrintDevices_blocks. Qed.

Lemma listing_has_four_blocks_per_summary_witness :
  fst (getAndPrintDevices (gateway_of home) idle)
  = Return (deviceInfo_modal
              [welcome_block;
               basicInfo (str "Desk lamp");
               currentInfo (VNum 65537) (VBool true) (str "white") (VNum 80)
                           (str "f1e0b5");
               textInput; divider]).
Proof.
  apply (@listing_has_four_blocks_per_summary unit (gateway_of home) home
           [VUndefined; light_summary light0; VUndefined; VUndefined] idle).
  - reflexivity.
  - repeat constructor.
Defined.

(** C7 as stated fails: for a light, one turn of the loop pushes four
    blocks, whatever was pushed before.  A text input stands between the
    fields section and the divider, so what the loop pushes for the device
    is not a section, fields, divider triple, and neither are the blocks
    that follow the welcome section of the modal. *)
Lemma loop_pushes_four_blocks_per_device :
  (forall blocks,
      fst (device_loop [light0] blocks idle)
      = Return (blocks
                ++ [basicInfo (str "Desk lamp");
                    currentInfo (VNum 65537) (VBool true) (str "white")
                                (VNum 80) (str "f1e0b5");
                    textInput; divider]))
  /\ (forall blocks,
        ~ (exists section fields rule,
              fst (device_loop [light0] blocks idle)
              = Return (blocks ++ [section; fields; rule])))
  /\ prop textInput "type" = str "input"
  /\ ~ (exists section fields rule,
          fst (getAndPrintDevices (gateway_of [("65537", light0)]) idle)
          = Return (deviceInfo_modal
                      (welcome_block :: [section; fields; rule]))).
Proof.
  assert (H : forall blocks,
             fst (device_loop [light0] blocks idle)
             = Return (blocks ++ flat_map rendered [light_summary light0])).
  { intros blocks.
    apply (@device_loop_blocks unit [light0] [light_summary light0] idle).
    repeat constructor. }
  split; [|split; [|split]].
  - intros blocks. rewrite H. reflexivity.
  - intros blocks (s & f & r & E). rewrite H in E. injection E as E.
    apply app_inv_head in E. discriminate E.
  - reflexivity.
  - intros (s & f & r & E). vm_compute in E. discriminate E.
Qed.

(** ** What the handlers leave behind *)

Section HandlerFacts.
Variable DB : Type.
Variable models : Models DB.
Implicit Types (w : world DB) (payload : value).

(** Case analysis on everything a callback depends on. *)
Ltac settle :=
  cbv beta iota zeta delta
    [bind lift ret try_catch read_payload write_payload respond console
     http schedule db_read db_write console_log console_error
     log_user_action clear_timers get get_index];
  repeat (match goal with
          | |- context [nullish ?v] => destruct (nullish v)
          | |- context [users_findBySlackId ?m ?i ?d] =>
              destruct (users_findBySlackId m i d)
          | |- context [user_setPolicyAgreementAndSave ?m ?u ?b ?d] =>
              destruct (user_setPolicyAgreementAndSave m u b d) as [[?|?] ?]
          | |- context [user_incrementKudosAndSave ?m ?u ?c ?d] =>
              destruct (user_incrementKudosAndSave m u c d) as [[?|?] ?]
          | |- context [neighborhoods_find ?m ?k ?d] =>
              destruct (neighborhoods_find m k d)
          | |- context [neighborhoods_fuzzyFind ?m ?k ?d] =>
              destruct (neighborhoods_fuzzyFind m k d)
          | |- context [agreedToPolicy ?u] => destruct (agreedToPolicy u)
          end; cbv beta iota).

(** Every callback answers exactly once and leaves the event alone. *)
Lemma tos_chain_effect id w :
  exists msg,
    w_responds (snd (tos_chain models id w)) = w_responds w ++ [msg]
    /\ w_payload (snd (tos_chain models id w)) = w_payload w
    /\ w_timers (snd (tos_chain models id w)) = w_timers w.
Proof.
  unfold tos_chain. settle; cbn [snd w_responds w_payload w_timers];
    eexists; repeat split; reflexivity.
Qed.

Lemma neighborhood_chain_effect key w :
  exists msg,
    w_responds (snd (neighborhood_chain models key w)) = w_responds w ++ [msg]
    /\ w_payload (snd (neighborhood_chain models key w)) = w_payload w
    /\ w_timers (snd (neighborhood_chain models key w)) = w_timers w.
Proof.
  unfold neighborhood_chain. settle;
    cbn [snd w_responds w_payload w_timers];
    eexists; repeat split; reflexivity.
Qed.

Lemma kudos_timeout_frame w :
  w_payload (snd (kudos_timeout models w)) = w_payload w
  /\ w_timers (snd (kudos_timeout models w)) = w_timers w.
Proof.
  unfold kudos_timeout. settle; cbn [snd w_payload w_timers]; auto.
Qed.

Lemma run_task_frame t w :
  w_payload (snd (run_task models t w)) = w_payload w
  /\ w_timers (snd (run_task models t w)) = w_timers w.
Proof.
  destruct t as [id|key|]; cbn [run_task].
  - destruct (tos_chain_effect id w) as (? & _ & ? & ?). auto.
  - destruct (neighborhood_chain_effect key w) as (? & _ & ? & ?). auto.
  - apply kudos_timeout_frame.
Qed.

Lemma run_tasks_payload (ts : list task) :
  forall w,
    w_payload (fold_left (fun w' t => snd (run_task models t w')) ts w)
    = w_payload w.
Proof.
  induction ts as [|t ts IH]; intros w; [reflexivity|].
  simpl. rewrite IH. apply run_task_frame.
Qed.

Lemma run_timers_payload w : w_payload (run_timers models w) = w_payload w.
Proof. unfold run_timers. rewrite run_tasks_payload. reflexivity. Qed.

(** The handlers that never write to the event. *)
Lemma dialog_submission_payload w :
  w_payload (snd (handle_event models dialog_submission w)) = w_payload w.
Proof.
  unfold handle_event.
  assert (E : w_payload (snd (dialog_submission w)) = w_payload w).
  { unfold dialog_submission. settle; cbn [snd w_payload]; try reflexivity.
    match goal with
    | |- context [validateKudosSubmission ?v] =>
        destruct (validateKudosSubmission v) as [errors|e]
    end; cbv beta iota; [|reflexivity].
    destruct (to_boolean errors); reflexivity. }
  destruct (dialog_submission w) as [r w']. cbn [snd] in *.
  rewrite run_timers_payload. exact E.
Qed.

Lemma options_payload w :
  w_payload (snd (handle_event models (pick_sf_neighborhood_options models) w))
  = w_payload w.
Proof.
  unfold handle_event.
  assert (E : w_payload (snd (pick_sf_neighborhood_options models w))
              = w_payload w).
  { unfold pick_sf_neighborhood_options. settle; reflexivity. }
  destruct (pick_sf_neighborhood_options models w) as [r w'].
  cbn [snd] in *. rewrite run_timers_payload. exact E.
Qed.
End HandlerFacts.

(** ** The deletion of the actions *)

Lemma lookup_replace_other (k k' : string) (v : value) fs :
  k' <> k -> lookup k' (replace_field k v fs) = lookup k' fs.
Proof.
  intros Hk. induction fs as [|[k0 v0] fs IH]; [reflexivity|].
  simpl. destruct (String.eqb k k0) eqn:E; simpl.
  - apply String.eqb_eq in E. subst k0.
    destruct (String.eqb k' k) eqn:E'; [|reflexivity].
    apply String.eqb_eq in E'. contradiction.
  - destruct (String.eqb k' k0); [reflexivity | exact IH].
Qed.

Lemma lookup_replace_same (k : string) (v : value) fs :
  nullish (lookup k fs) = false -> lookup k (replace_field k v fs) = v.
Proof.
  induction fs as [|[k0 v0] fs IH]; simpl; [discriminate|].
  destruct (String.eqb k k0) eqn:E; simpl; rewrite E; auto.
Qed.

Lemma lookup_remove (k : string) fs : lookup k (remove_field k fs) = VUndefined.
Proof.
  induction fs as [|[k0 v0] fs IH]; [reflexivity|].
  unfold remove_field in *. simpl.
  destruct (String.eqb k k0) eqn:E; simpl; [exact IH|].
  rewrite E. exact IH.
Qed.

Lemma prop_delete_prop (v v' : value) :
  delete_prop v "actions" = Return v' -> prop v' "actions" = VUndefined.
Proof.
  destruct v; simpl; intros H; try discriminate H; injection H as <-;
    try reflexivity.
  apply lookup_remove.
Qed.

Lemma elem_set_index (v x : value) :
  nullish (elem v 0) = false ->
  elem (set_index v 0 x) 0 = x \/ (set_index v 0 x = v /\ exists s, v = VStr s).
Proof.
  destruct v as [| | | |s|xs|fs]; simpl; try discriminate.
  - intros _. right. eauto.
  - destruct xs; simpl; [discriminate|]. auto.
  - intros H. left. apply lookup_replace_same. exact H.
Qed.

Section Deletion.
Variables payload payload' : value.
Hypothesis Hdel : without_actions payload = Return payload'.

Let reply := prop payload "original_message".
Let attachments := prop reply "attachments".
Let first := elem attachments 0.

Lemma without_actions_inv :
  nullish payload = false /\ nullish reply = false
  /\ nullish attachments = false /\ nullish first = false
  /\ exists first',
      delete_prop first "actions" = Return first'
      /\ payload' = set_prop payload "original_message"
                      (set_prop reply "attachments"
                         (set_index attachments 0 first')).
Proof.
  unfold first, attachments, reply. revert Hdel.
  unfold without_actions, get, get_index.
  destruct (nullish payload); [discriminate|]. cbn [obind].
  destruct (nullish (prop payload "original_message")); [discriminate|].
  cbn [obind].
  destruct (nullish (prop (prop payload "original_message") "attachments"));
    [discriminate|].
  cbn [obind].
  destruct (nullish (elem (prop (prop payload "original_message")
                                "attachments") 0)) eqn:E.
  - destruct (elem _ 0); try discriminate E; discriminate.
  - destruct (delete_prop _ "actions") as [first'|e] eqn:D;
      [|discriminate].
    cbn [obind]. intros H. injection H as <-.
    repeat split; auto. exists first'. auto.
Qed.

Lemma without_actions_not_nullish : nullish payload' = false.
Proof.
  destruct without_actions_inv as (Hp & _ & _ & _ & first' & _ & ->).
  destruct payload; try discriminate; reflexivity.
Qed.

(** The other fields of the event are untouched. *)
Lemma without_actions_other_fields (k : string) :
  k <> "original_message" -> prop payload' k = prop payload k.
Proof.
  intros Hk. destruct without_actions_inv as (_ & _ & _ & _ & first' & _ & ->).
  destruct payload; try reflexivity.
  simpl. apply lookup_replace_other. exact Hk.
Qed.

(** The first attachment of the event's message has no actions left. *)
Lemma without_actions_deleted :
  prop (elem (prop (prop payload' "original_message") "attachments") 0)
       "actions" = VUndefined.
Proof.
  destruct without_actions_inv as (_ & Hr & Ha & Hf & first' & Hd & ->).
  fold reply. fold attachments.
  assert (E1 : prop (set_prop payload "original_message"
                       (set_prop reply "attachments"
                          (set_index attachments 0 first')))
                    "original_message"
               = set_prop reply "attachments" (set_index attachments 0 first')).
  { unfold reply in Hr |- *. destruct payload; try discriminate Hr.
    simpl. apply lookup_replace_same. exact Hr. }
  rewrite E1.
  assert (E2 : prop (set_prop reply "attachments"
                       (set_index attachments 0 first')) "attachments"
               = set_index attachments 0 first').
  { unfold attachments in Ha |- *. destruct reply; try discriminate Ha.
    simpl. apply lookup_replace_same. exact Ha. }
  rewrite E2.
  destruct (elem_set_index attachments first' Hf) as [-> | [-> [s Hs]]].
  - apply (prop_delete_prop _ Hd).
  - fold first. unfold first in Hf |- *. rewrite Hs in *. simpl in *.
    destruct s; [discriminate | reflexivity].
Qed.
End Deletion.

(** ** The handlers that strip the message *)

Section Stripping.
Variable DB : Type.
Variable models : Models DB.
Variables (db : DB) (payload payload' : value).
Hypothesis Huser : nullish (prop payload "user") = false.
Hypothesis Hteam : nullish (prop payload "team") = false.
Hypothesis Hdel : without_actions payload = Return payload'.

Lemma accept_tos_run :
  accept_tos (initial_world db payload)
  = (Return (prop payload' "original_message"),
     mkWorld payload' [tos_error] [opening_log payload " pressed a button"] [] db
             [TosChain (prop (prop payload "user") "id")]).
Proof.
  unfold accept_tos, strip_and_return_original. js_run.
  rewrite Hdel. js_run.
  rewrite get_ok by (exact (@without_actions_not_nullish payload payload' Hdel)).
  reflexivity.
Qed.

Lemma pick_sf_neighborhood_run (key : value) :
  selected_value payload = Return key ->
  pick_sf_neighborhood (initial_world db payload)
  = (Return (prop payload' "original_message"),
     mkWorld payload' [] [opening_log payload " selected from a menu"] [] db
             [NeighborhoodChain key]).
Proof.
  intros Hkey. unfold pick_sf_neighborhood, strip_and_return_original.
  js_run. rewrite Hkey. js_run. rewrite Hdel. js_run.
  rewrite get_ok by (exact (@without_actions_not_nullish payload payload' Hdel)).
  reflexivity.
Qed.

Lemma accept_tos_handled :
  fst (handle_event models accept_tos (initial_world db payload))
  = Return (prop payload' "original_message")
  /\ w_payload (snd (handle_event models accept_tos
                       (initial_world db payload))) = payload'
  /\ exists final,
      w_responds (snd (handle_event models accept_tos
                         (initial_world db payload)))
      = [tos_error; final].
Proof.
  unfold handle_event. rewrite accept_tos_run.
  cbn [fst snd]. unfold run_timers.
  cbn [w_timers fold_left run_task clear_timers w_payload w_responds
       w_console w_http w_db].
  match goal with
  | |- context [tos_chain models ?id ?w] =>
      destruct (tos_chain_effect models id w) as (msg & Hr & Hp & _)
  end.
  rewrite Hr, Hp. cbn [w_responds w_payload app].
  split; [reflexivity | split; [reflexivity | eexists; reflexivity]].
Qed.

Lemma pick_sf_neighborhood_handled (key : value) :
  selected_value payload = Return key ->
  fst (handle_event models pick_sf_neighborhood (initial_world db payload))
  = Return (prop payload' "original_message")
  /\ w_payload (snd (handle_event models pick_sf_neighborhood
                       (initial_world db payload))) = payload'.
Proof.
  intros Hkey. unfold handle_event.
  rewrite (pick_sf_neighborhood_run Hkey).
  cbn [fst snd]. unfold run_timers.
  cbn [w_timers fold_left run_task clear_timers w_payload w_responds
       w_console w_http w_db].
  match goal with
  | |- context [neighborhood_chain models ?k ?w] =>
      destruct (neighborhood_chain_effect models k w) as (msg & _ & Hp & _)
  end.
  rewrite Hp. auto.
Qed.
End Stripping.

(** ** Claims about the handlers *)

(** C1, at a press of the [Yes] button by a known user: [accept_tos] calls
    [respond] twice, first with the error text, then with the confirmation.
    The first call does not depend on the event or on the persistence layer:
    whenever the handler gets as far as its [return], the error text has
    been pushed, and one more reply follows it. *)
Theorem accept_tos_answers_twice :
  w_responds (snd (handle_event models0 accept_tos
                     (initial_world store0 tos_event)))
  = [text_reply (lit "An error occurred while recording your agreement choice.");
     text_reply (lit "Thank you for agreeing to the terms of service")]
  /\ (forall (DB : Type) (models : Models DB) (db : DB)
             (payload payload' : value),
         nullish (prop payload "user") = false ->
         nullish (prop payload "team") = false ->
         without_actions payload = Return payload' ->
         exists final,
           w_responds (snd (handle_event models accept_tos
                              (initial_world db payload)))
           = [text_reply (lit "An error occurred while recording your agreement choice.");
              final]).
Proof.
  split; [vm_compute; reflexivity|].
  intros DB models db payload payload' Hu Ht Hd.
  destruct (@accept_tos_handled DB models db payload payload' Hu Ht Hd) as (_ & _ & final & H).
  exists final. exact H.
Qed.

(** The sibling handler answers once. *)
Lemma pick_sf_neighborhood_answers_once :
  List.length (w_responds (snd (handle_event models0 pick_sf_neighborhood
                                  (initial_world store0 menu_event))))
  = 1%nat.
Proof. vm_compute. reflexivity. Qed.

(** What the kudos callback pushes: the acknowledgement, then a reply that
    depends on the user found under [submission.id]. *)
Lemma kudos_timeout_responds
  (DB : Type) (models : Models DB) (db : DB) (payload : value)
  (rs : list value) (cs : list console_call) (hs : list http_call)
  (ts : list task) :
  nullish (prop payload "user") = false ->
  nullish (prop payload "submission") = false ->
  let submission := prop payload "submission" in
  let partial := partialMessage (prop (prop payload "user") "id")
                                (prop submission "user") in
  w_responds (snd (kudos_timeout models (mkWorld payload rs cs hs db ts)))
  = rs ++ [text_reply partial;
           kudos_final models db (prop submission "id")
                       (prop submission "comment") partial].
Proof.
  intros Hu Hs submission partial. unfold kudos_timeout, kudos_final.
  js_run. subst submission partial.
  destruct (users_findBySlackId models _ db) as [found|e];
    [|cbn; rewrite <- app_assoc; reflexivity].
  cbv beta iota.
  destruct (user_incrementKudosAndSave models found _ db) as [[found'|e] db'];
    cbn; rewrite <- app_assoc; reflexivity.
Qed.

(** A submission with a comment that is not blank: nothing is returned, and
    the callback pushes its two replies. *)
Lemma dialog_submission_handled
  (DB : Type) (models : Models DB) (db : DB) (payload : value) (s : jsstring) :
  nullish (prop payload "user") = false ->
  nullish (prop payload "team") = false ->
  prop (prop payload "submission") "comment" = VStr s ->
  trim s <> [] ->
  let submission := prop payload "submission" in
  let partial := partialMessage (prop (prop payload "user") "id")
                                (prop submission "user") in
  fst (handle_event models dialog_submission (initial_world db payload))
  = Return VUndefined
  /\ w_responds (snd (handle_event models dialog_submission
                        (initial_world db payload)))
     = [text_reply partial;
        kudos_final models db (prop submission "id") (VStr s) partial].
Proof.
  intros Hu Ht Hc Hs submission partial.
  assert (Hsub : nullish (prop payload "submission") = false)
    by (eapply prop_VStr_not_nullish; eassumption).
  assert (E : dialog_submission (initial_world db payload)
              = (Return VUndefined,
                 mkWorld payload [] [opening_log payload " submitted a dialog"]
                         [] db [KudosTimeout])).
  { unfold dialog_submission. js_run.
    rewrite (validateKudosSubmission_string _ Hc).
    destruct (trim s); [contradiction|]. reflexivity. }
  unfold handle_event. rewrite E. cbn [fst snd]. split; [reflexivity|].
  unfold run_timers, clear_timers.
  cbn [w_timers fold_left run_task w_payload w_responds w_console w_http w_db].
  rewrite kudos_timeout_responds by assumption.
  subst submission partial. cbv zeta. rewrite Hc. reflexivity.
Qed.

(** C3, at the submission of the kudos dialog by [U1] for the teammate [U2],
    who has four kudos, with the comment [great work]: two replies are
    pushed, the acknowledgement that names [U1] and [U2], then the error
    text; the counter of [U2] is still four.  The total of five is reported
    only when the submission also carries [U2] in a field [id]. *)
Theorem kudos_counter_is_looked_up_by_submission_id :
  w_responds (snd (handle_event models0 dialog_submission
                     (initial_world store0 kudos_event)))
  = [text_reply (lit "<@U1> just gave kudos to <@U2>.");
     text_reply (lit "An error occurred while incrementing kudos.")]
  /\ store_users (w_db (snd (handle_event models0 dialog_submission
                               (initial_world store0 kudos_event))))
     = [mkUser (str "U1") false 0; mkUser (str "U2") false 4]
  /\ w_responds (snd (handle_event models0 dialog_submission
                        (initial_world store0 kudos_event_with_id)))
     = [text_reply (lit "<@U1> just gave kudos to <@U2>.");
        VObj [("text", VStr (lit "<@U1> just gave kudos to <@U2>. That makes a total of 5! :balloon:"));
              ("replace_original", VBool true)]]
  /\ (forall (DB : Type) (models : Models DB) (db : DB) (payload : value)
             (s : jsstring),
         nullish (prop payload "user") = false ->
         nullish (prop payload "team") = false ->
         prop (prop payload "submission") "comment" = VStr s ->
         trim s <> [] ->
         let submission := prop payload "submission" in
         let partial := partialMessage (prop (prop payload "user") "id")
                                       (prop submission "user") in
         w_responds (snd (handle_event models dialog_submission
                            (initial_world db payload)))
         = [text_reply partial;
            match users_findBySlackId models (prop submission "id") db with
            | Return found =>
                match fst (user_incrementKudosAndSave models found (VStr s) db)
                with
                | Return found' => kudos_total partial (kudosCount found')
                | Throw _ => kudos_error
                end
            | Throw _ => kudos_error
            end]).
Proof.
  repeat split; try (vm_compute; reflexivity).
  intros DB models db payload s Hu Ht Hc Hs.
  exact (proj2 (@dialog_submission_handled DB models db payload s Hu Ht Hc Hs)).
Qed.

(** C8 as stated fails: once [accept_tos] has handled a press of the button,
    the event is no longer the one received; the buttons of its
    [original_message] are gone. *)
Lemma accept_tos_mutates_the_event :
  w_payload (snd (handle_event models0 accept_tos
                    (initial_world store0 tos_event))) <> tos_event
  /\ prop (elem (prop (prop tos_event "original_message") "attachments") 0)
          "actions" <> VUndefined
  /\ prop (elem (prop (prop (w_payload
                               (snd (handle_event models0 accept_tos
                                       (initial_world store0 tos_event))))
                            "original_message") "attachments") 0)
          "actions" = VUndefined.
Proof.
  repeat split.
  - vm_compute. intros H. discriminate H.
  - vm_compute. intros H. discriminate H.
Qed.

(** ** Slash command *)

Lemma jsstring_eqb_eq (s t : jsstring) : jsstring_eqb s t = true <-> s = t.
Proof.
  revert t. induction s as [|c s IH]; intros [|d t]; simpl;
    try (split; [discriminate | discriminate]); [tauto|].
  rewrite andb_true_iff, N.eqb_eq, IH. split.
  - intros [-> ->]. reflexivity.
  - intros H. injection H as -> ->. auto.
Qed.

Lemma jsstring_eqb_neq (s t : jsstring) : s <> t -> jsstring_eqb s t = false.
Proof.
  intros H. destruct (jsstring_eqb s t) eqn:E; [|reflexivity].
  apply jsstring_eqb_eq in E. contradiction.
Qed.

(** [text.split(' ')[0]] is the first word of [text]. *)
Lemma split_on_space_head (s : jsstring) :
  exists rest, split_on space s = before_space s :: rest.
Proof.
  induction s as [|c s [rest IH]]; simpl; [eauto|].
  destruct (N.eqb c space); [eauto|]. rewrite IH. eauto.
Qed.

(** The first word has no space in it, and the text goes on, if at all, with
    a space. *)
Lemma before_space_spec (s : jsstring) :
  ~ In space (before_space s)
  /\ (s = before_space s \/ exists rest, s = before_space s ++ space :: rest).
Proof.
  induction s as [|c s [IHn IHs]]; simpl; [tauto|].
  destruct (N.eqb c space) eqn:E.
  - apply N.eqb_eq in E. subst c. split; [tauto|]. right. exists s.
    reflexivity.
  - apply N.eqb_neq in E. split.
    + simpl. intros [H|H]; [congruence | contradiction].
    + destruct IHs as [H | [rest H]].
      * left. simpl. congruence.
      * right. exists rest. simpl. congruence.
Qed.

Section Listing_frame.
Variable DB : Type.
Implicit Types (w : world DB).

Lemma printDeviceInfo_http device w :
  w_http (snd (printDeviceInfo device w)) = w_http w.
Proof.
  unfold printDeviceInfo, get, get_index.
  cbv beta iota zeta delta [bind lift ret console console_log].
  repeat (match goal with
          | |- context [nullish ?v] => destruct (nullish v)
          | |- context [is_num ?v ?n] => destruct (is_num v n)
          end; cbv beta iota delta [orb]); reflexivity.
Qed.

Lemma device_loop_http (devices : list value) :
  forall blocks w, w_http (snd (device_loop devices blocks w)) = w_http w.
Proof.
  induction devices as [|device rest IH]; intros blocks w; [reflexivity|].
  rewrite device_loop_cons.
  pose proof (printDeviceInfo_http device w) as E.
  destruct (printDeviceInfo device w) as [[info|e] w1]; cbn [snd] in E;
    [|exact E].
  cbv zeta. destruct (is_undefined info).
  - rewrite IH. exact E.
  - destruct (device_blocks info); [rewrite IH|]; exact E.
Qed.

Lemma getAndPrintDevices_http svc w :
  w_http (snd (getAndPrintDevices svc w)) = w_http w.
Proof.
  destruct (getConnection svc) as [devices|e] eqn:Hc.
  - rewrite (getAndPrintDevices_run _ w Hc).
    pose proof (device_loop_http (map snd devices) [welcome_block]
                  (logged w (ConsoleLog [LVal (VObj devices)]))) as E.
    destruct (device_loop (map snd devices) [welcome_block] _)
      as [[blocks|e] w']; exact E.
  - unfold getAndPrintDevices. rewrite Hc. reflexivity.
Qed.

Lemma getAndPrintDevices_fst_indep svc w w' :
  fst (getAndPrintDevices svc w) = fst (getAndPrintDevices svc w').
Proof.
  destruct (getConnection svc) as [devices|e] eqn:Hc.
  - rewrite (getAndPrintDevices_run _ w Hc), (getAndPrintDevices_run _ w' Hc).
    pose proof (device_loop_fst_indep (map snd devices) [welcome_block]
                  (logged w (ConsoleLog [LVal (VObj devices)]))
                  (logged w' (ConsoleLog [LVal (VObj devices)]))) as E.
    destruct (device_loop (map snd devices) [welcome_block]
                (logged w _)) as [r w1].
    destruct (device_loop (map snd devices) [welcome_block]
                (logged w' _)) as [r' w1'].
    simpl in E. subst r'. destruct r; reflexivity.
  - unfold getAndPrintDevices. rewrite Hc. reflexivity.
Qed.
End Listing_frame.

Section SlashCommand.
Variable DB : Type.
Variable svc : Services.
Variable req : request.
Variable w : world DB.

Let body := req_body req.
Let w1 :=
  logged w (ConsoleLog [LVal (str "TCL: slackSlashCommand -> req"); LVal body]).

Hypothesis Hbody : nullish body = false.

Lemma slackSlashCommand_rejected :
  req_verified req && is_str (prop body "command") command_name = false ->
  slackSlashCommand svc req w
  = (Return tt,
     mkWorld (w_payload w) (w_responds w) (w_console w1)
             (w_http w ++ [ResSendStatus 404; NextCalled]) (w_db w)
             (w_timers w)).
Proof.
  intros H. unfold slackSlashCommand. fold body. js_run.
  rewrite H. js_run. unfold w1, logged. js_unfold.
  rewrite <- app_assoc. reflexivity.
Qed.

Lemma slackSlashCommand_accepted (text : jsstring) :
  req_verified req = true ->
  is_str (prop body "command") command_name = true ->
  prop body "text" = VStr text ->
  slackSlashCommand svc req w
  = (let word := before_space text in
     if jsstring_eqb word (lit "button")
     then http (ResJson interactiveButtons) w1
     else if jsstring_eqb word (lit "menu")
     then http (ResJson interactiveMenu) w1
     else if jsstring_eqb word (lit "devices")
     then bind (getAndPrintDevices svc) (fun devices => http (ResJson devices))
               w1
     else if jsstring_eqb word (lit "dialog") then open_dialog svc body w1
     else http (ResSend (Some usage)) w1).
Proof.
  intros Hv Hc Ht. unfold slackSlashCommand. fold body. js_run.
  rewrite Hv, Hc, Ht. cbn [andb call_split_space].
  destruct (split_on_space_head text) as [rest ->]. cbn [map].
  js_run. cbn [elem nth is_str].
  unfold w1, logged. js_unfold.
  repeat match goal with
         | |- context [jsstring_eqb ?a ?b] => destruct (jsstring_eqb a b)
         end; reflexivity.
Qed.

Lemma open_dialog_http (w0 : world DB) :
  exists rest,
    w_http (snd (open_dialog svc body w0))
    = w_http w0
      ++ ResSend None
         :: ViewsOpen (VObj [("trigger_id", prop body "trigger_id");
                             ("view", VObj [("interactiveMenu",
                                             interactiveMenu)])])
         :: rest.
Proof.
  unfold open_dialog. js_run.
  destruct (views_open svc _) as [error|].
  - unfold get. js_unfold.
    destruct (nullish error); cbv beta iota.
    + exists []. cbn. rewrite <- app_assoc. reflexivity.
    + destruct (axios_post svc _ _); eexists; cbn;
        rewrite <- !app_assoc; reflexivity.
  - exists []. cbn. rewrite <- app_assoc. reflexivity.
Qed.
End SlashCommand.

(** C9, as the code has it: on a verified request for the command, the
    first word of the text selects what is sent ([button], [menu],
    [devices], [dialog]) and any other first word gets the usage string; a
    request that is not verified, or that is for another command, gets
    [sendStatus(404)], which sends the status text [Not Found] as the body,
    and then [next()]. *)
Theorem slash_command_dispatch
  (DB : Type) (svc : Services) (req : request) (w : world DB) :
  nullish (req_body req) = false ->
  let body := req_body req in
  let run := slackSlashCommand svc req w in
  (forall text,
      req_verified req = true ->
      is_str (prop body "command") command_name = true ->
      prop body "text" = VStr text ->
      let word := before_space text in
      (word = lit "button" ->
       fst run = Return tt
       /\ w_http (snd run) = w_http w ++ [ResJson interactiveButtons])
      /\ (word = lit "menu" ->
          fst run = Return tt
          /\ w_http (snd run) = w_http w ++ [ResJson interactiveMenu])
      /\ (word = lit "devices" ->
          forall modal,
            fst (getAndPrintDevices svc w) = Return modal ->
            fst run = Return tt
            /\ w_http (snd run) = w_http w ++ [ResJson modal])
      /\ (word = lit "dialog" ->
          exists rest,
            w_http (snd run)
            = w_http w
              ++ ResSend None
                 :: ViewsOpen (VObj [("trigger_id", prop body "trigger_id");
                                     ("view", VObj [("interactiveMenu",
                                                     interactiveMenu)])])
                 :: rest)
      /\ (word <> lit "button" -> word <> lit "menu" ->
          word <> lit "devices" -> word <> lit "dialog" ->
          fst run = Return tt
          /\ w_http (snd run)
             = w_http w
               ++ [ResSend (Some (str "Use this command followed by `button`, `menu`, or `dialog`."))]))
  /\ (req_verified req = false
      \/ is_str (prop body "command") command_name = false ->
      fst run = Return tt
      /\ w_http (snd run) = w_http w ++ [ResSendStatus 404; NextCalled]
      /\ map response_body [ResSendStatus 404; NextCalled]
         = [Some (str "Not Found"); None]).
Proof.
  intros Hbody body run. split.
  - intros text Hv Hc Ht word.
    pose proof (@slackSlashCommand_accepted DB svc req w Hbody text Hv Hc Ht)
      as E.
    cbv zeta in E. fold word in E. fold run in E.
    split; [|split; [|split; [|split]]].
    + intros H. rewrite E, H. split; reflexivity.
    + intros H. rewrite E, H. split; reflexivity.
    + intros H modal Hm. rewrite E, H.
      change (jsstring_eqb (lit "devices") (lit "button")) with false.
      change (jsstring_eqb (lit "devices") (lit "menu")) with false.
      change (jsstring_eqb (lit "devices") (lit "devices")) with true.
      cbv iota. unfold bind.
      set (w1 := logged w (ConsoleLog
                             [LVal (str "TCL: slackSlashCommand -> req");
                              LVal (req_body req)])).
      pose proof (getAndPrintDevices_http svc w1) as Hh.
      rewrite (getAndPrintDevices_fst_indep svc w w1) in Hm.
      destruct (getAndPrintDevices svc w1) as [r w']. simpl in Hm. subst r.
      cbn [snd] in Hh. unfold http. cbn [fst snd w_http]. rewrite Hh.
      split; reflexivity.
    + intros H. rewrite E, H.
      change (jsstring_eqb (lit "dialog") (lit "button")) with false.
      change (jsstring_eqb (lit "dialog") (lit "menu")) with false.
      change (jsstring_eqb (lit "dialog") (lit "devices")) with false.
      change (jsstring_eqb (lit "dialog") (lit "dialog")) with true.
      cbv iota.
      destruct (@open_dialog_http DB svc req Hbody
                  (logged w (ConsoleLog
                               [LVal (str "TCL: slackSlashCommand -> req");
                                LVal (req_body req)]))) as [rest Hr].
      exists rest. rewrite Hr. reflexivity.
    + intros Hb Hm Hd Hg. rewrite E.
      rewrite !jsstring_eqb_neq by assumption. split; reflexivity.
  - intros H.
    assert (F : req_verified req && is_str (prop body "command") command_name
                = false).
    { destruct H as [-> | ->]; [reflexivity | apply andb_false_r]. }
    unfold run. rewrite (@slackSlashCommand_rejected DB svc req w Hbody F).
    split; [|split]; reflexivity.
Qed.

Lemma slash_command_dispatch_witness :
  w_http (snd (slackSlashCommand (gateway_of home)
                 (slash_request command_name (lit "menu please") true) idle))
  = [ResJson interactiveMenu]
  /\ w_http (snd (slackSlashCommand (gateway_of home)
                    (slash_request command_name (lit "help") true) idle))
     = [ResSend (Some (str "Use this command followed by `button`, `menu`, or `dialog`."))]
  /\ w_http (snd (slackSlashCommand (gateway_of home)
                    (slash_request (lit "/other") (lit "menu") true) idle))
     = [ResSendStatus 404; NextCalled]
  /\ w_http (snd (slackSlashCommand (gateway_of home)
                    (slash_request command_name (lit "menu") false) idle))
     = [ResSendStatus 404; NextCalled].
Proof.
  split; [|split; [|split]].
  - apply (proj1 (proj2 (proj1 (@slash_command_dispatch unit (gateway_of home)
             (slash_request command_name (lit "menu please") true) idle
             eq_refl) (lit "menu please") eq_refl eq_refl eq_refl)) eq_refl).
  - apply (proj2 (proj2 (proj2 (proj2 (proj1 (@slash_command_dispatch unit
             (gateway_of home) (slash_request command_name (lit "help") true)
             idle eq_refl) (lit "help") eq_refl eq_refl eq_refl))))).
    all: vm_compute; discriminate.
  - apply (proj2 (@slash_command_dispatch unit (gateway_of home)
             (slash_request (lit "/other") (lit "menu") true) idle eq_refl)).
    right. reflexivity.
  - apply (proj2 (@slash_command_dispatch unit (gateway_of home)
             (slash_request command_name (lit "menu") false) idle eq_refl)).
    left. reflexivity.
Defined.

(** C9 as stated fails: a request that is not verified, and a verified
    request for another command, are answered with a body, the status text
    of 404. *)
Lemma rejected_request_gets_a_body :
  map response_body
      (w_http (snd (slackSlashCommand (gateway_of home)
                      (slash_request command_name (lit "menu") false) idle)))
  = [Some (str "Not Found"); None]
  /\ map response_body
         (w_http (snd (slackSlashCommand (gateway_of home)
                         (slash_request (lit "/other") (lit "menu") true)
                         idle)))
     = [Some (str "Not Found"); None]
  /\ ~ (forall c,
          In c (w_http (snd (slackSlashCommand (gateway_of home)
                               (slash_request command_name (lit "menu") false)
                               idle))) ->
          response_body c = None).
Proof.
  split; [reflexivity | split; [reflexivity|]].
  intros H. specialize (H (ResSendStatus 404) (or_introl eq_refl)).
  discriminate H.
Qed.

(** ** Further properties of the handlers *)

Lemma forallb_false_existsb (p : N -> bool) (s : jsstring) :
  forallb p s = false <-> existsb (fun c => negb (p c)) s = true.
Proof.
  induction s as [|c s IH]; simpl; [split; discriminate|].
  destruct (p c); simpl; [exact IH | tauto].
Qed.

(** X1: for a comment that is a string, [validateKudosSubmission] reports
    nothing exactly when some code unit of the comment is not white space;
    otherwise it reports the one error on [comment]. *)
Theorem validateKudosSubmission_accepts_iff_not_blank
  (submission : value) (s : jsstring) :
  prop submission "comment" = VStr s ->
  (validateKudosSubmission submission = Return VUndefined
   <-> existsb (fun c => negb (is_white_space c)) s = true)
  /\ (validateKudosSubmission submission
      = Return (VObj [("errors", VArr [comment_error])])
      <-> forallb is_white_space s = true).
Proof.
  intros Hc. rewrite (validateKudosSubmission_string _ Hc).
  destruct (forallb is_white_space s) eqn:E.
  - rewrite (trim_white_space _ E). split; split; intros H;
      try reflexivity; try discriminate H.
    apply forallb_false_existsb in H. congruence.
  - destruct (trim s) as [|c t] eqn:T.
    + apply trim_empty_iff in T. congruence.
    + split; split; intros H; try reflexivity; try discriminate H.
      apply forallb_false_existsb. exact E.
Qed.

Lemma validateKudosSubmission_accepts_iff_not_blank_witness :
  validateKudosSubmission (VObj [("user", str "U2"); ("comment", str " ok ")])
  = Return VUndefined.
Proof.
  apply (proj1 (validateKudosSubmission_accepts_iff_not_blank
                  (VObj [("user", str "U2"); ("comment", str " ok ")])
                  (s := lit " ok ") eq_refl)).
  reflexivity.
Defined.

Lemma validateKudosSubmission_throws (submission : value) :
  (forall s, prop submission "comment" <> VStr s) ->
  validateKudosSubmission submission = Throw TypeError.
Proof.
  intros H. unfold validateKudosSubmission, get.
  destruct (nullish submission); [reflexivity|]. cbn [obind].
  destruct (prop submission "comment") as [| | | |s| |]; try reflexivity.
  exfalso. apply (H s). reflexivity.
Qed.

(** X2: a dialog submission whose comment is not a string (or that has no
    submission at all) makes the handler throw a [TypeError]: nothing is
    returned, nothing is pushed, nothing is scheduled and the event is
    untouched. *)
Theorem dialog_submission_without_comment_throws
  (DB : Type) (models : Models DB) (db : DB) (payload : value) :
  nullish (prop payload "user") = false ->
  nullish (prop payload "team") = false ->
  (forall s, prop (prop payload "submission") "comment" <> VStr s) ->
  dialog_submission (initial_world db payload)
  = (Throw TypeError,
     mkWorld payload [] [opening_log payload " submitted a dialog"] [] db [])
  /\ w_responds (snd (handle_event models dialog_submission
                        (initial_world db payload))) = [].
Proof.
  intros Hu Ht Hc.
  assert (E : dialog_submission (initial_world db payload)
              = (Throw TypeError,
                 mkWorld payload []
                         [opening_log payload " submitted a dialog"] [] db [])).
  { unfold dialog_submission. js_run.
    rewrite (validateKudosSubmission_throws _ Hc). reflexivity. }
  split; [exact E|]. unfold handle_event. rewrite E. reflexivity.
Qed.

Lemma dialog_submission_without_comment_throws_witness :
  fst (handle_event models0 dialog_submission
         (initial_world store0
            (VObj [("user", ann); ("team", acme);
                   ("submission", VObj [("user", str "U2")])])))
  = Throw TypeError.
Proof.
  unfold handle_event.
  rewrite (proj1 (@dialog_submission_without_comment_throws Store models0
                    store0
                    (VObj [("user", ann); ("team", acme);
                           ("submission", VObj [("user", str "U2")])])
                    eq_refl eq_refl
                    (fun s H => ltac:(discriminate H)))).
  reflexivity.
Defined.

(** X3: the options handler always answers: with one option per
    neighborhood found, in the order found, text and value both the name,
    or with no option when the search fails; it pushes nothing, schedules
    nothing and leaves the event and the persistence state as they were. *)
Theorem options_handler_always_answers
  (DB : Type) (models : Models DB) (db : DB) (payload : value) :
  nullish (prop payload "user") = false ->
  nullish (prop payload "team") = false ->
  let w := initial_world db payload in
  let run := pick_sf_neighborhood_options models w in
  fst run
  = Return (match neighborhoods_fuzzyFind models (prop payload "value") db with
            | Return found => options_of (map name found)
            | Throw _ => options_of []
            end)
  /\ w_responds (snd run) = []
  /\ w_timers (snd run) = []
  /\ w_db (snd run) = db
  /\ w_payload (snd run) = payload.
Proof.
  intros Hu Ht w run. unfold run, w, pick_sf_neighborhood_options. js_run.
  destruct (neighborhoods_fuzzyFind models (prop payload "value") db)
    as [found|e]; cbv beta iota; cbn [fst snd w_responds w_timers w_db w_payload].
  - unfold formatNeighborhoodsAsOptions, options_of. rewrite map_map. auto.
  - auto.
Qed.

Lemma options_handler_always_answers_witness :
  fst (pick_sf_neighborhood_options models0
         (initial_world store0
            (VObj [("user", ann); ("team", acme); ("value", str "Mis")])))
  = Return (options_of [lit "Mission"])
  /\ fst (pick_sf_neighborhood_options models0
            (initial_world store0 (VObj [("user", ann); ("team", acme)])))
     = Return (options_of []).
Proof.
  split.
  - apply (@options_handler_always_answers Store models0 store0
             (VObj [("user", ann); ("team", acme); ("value", str "Mis")])
             eq_refl eq_refl).
  - apply (@options_handler_always_answers Store models0 store0
             (VObj [("user", ann); ("team", acme)]) eq_refl eq_refl).
Defined.

(** ** The promise chains, step by step *)

Section Chains.
Variable DB : Type.
Variable models : Models DB.
Variables (payload : value) (rs : list value) (cs : list console_call).
Variables (hs : list http_call) (db : DB) (ts : list task).

Ltac chain_cases :=
  cbv beta iota zeta delta
    [bind lift ret try_catch read_payload write_payload respond console
     db_read db_write console_log console_error get get_index obind
     w_payload w_responds w_console w_http w_db w_timers];
  repeat (match goal with
          | |- context [users_findBySlackId ?m ?i ?d] =>
              destruct (users_findBySlackId m i d)
          | |- context [neighborhoods_find ?m ?k ?d] =>
              destruct (neighborhoods_find m k d)
          | |- context [nullish ?v] => destruct (nullish v)
          | |- context [user_setPolicyAgreementAndSave ?m ?u ?b ?d] =>
              destruct (user_setPolicyAgreementAndSave m u b d) as [[?|?] ?]
          end; cbv beta iota);
  try reflexivity.

Lemma tos_chain_run (id : value) :
  tos_chain models id (mkWorld payload rs cs hs db ts)
  = match users_findBySlackId models id db with
    | Return user =>
        match pressed_value payload with
        | Return choice =>
            match user_setPolicyAgreementAndSave models user
                    (is_str choice (lit "accept")) db with
            | (Return user', db') =>
                (Return tt,
                 mkWorld payload
                   (rs ++ [text_reply (if agreedToPolicy user'
                                       then tos_accepted else tos_denied)])
                   cs hs db' ts)
            | (Throw e, db') =>
                (Return tt,
                 mkWorld payload (rs ++ [tos_error]) (cs ++ [ConsoleError e])
                         hs db' ts)
            end
        | Throw e =>
            (Return tt,
             mkWorld payload (rs ++ [tos_error]) (cs ++ [ConsoleError e])
                     hs db ts)
        end
    | Throw e =>
        (Return tt,
         mkWorld payload (rs ++ [tos_error]) (cs ++ [ConsoleError e]) hs db ts)
    end.
Proof.
  unfold tos_chain, pressed_value. chain_cases.
Qed.

Lemma neighborhood_chain_run (key : value) :
  neighborhood_chain models key (mkWorld payload rs cs hs db ts)
  = match neighborhoods_find models key db with
    | Return n =>
        match (let? original := get payload "original_message" in
               get original "text") with
        | Return text =>
            (Return tt,
             mkWorld payload (rs ++ [neighborhood_reply text n]) cs hs db ts)
        | Throw e =>
            (Return tt,
             mkWorld payload (rs ++ [neighborhood_error])
                     (cs ++ [ConsoleError e]) hs db ts)
        end
    | Throw e =>
        (Return tt,
         mkWorld payload (rs ++ [neighborhood_error]) (cs ++ [ConsoleError e])
                 hs db ts)
    end.
Proof.
  unfold neighborhood_chain, neighborhood_reply. chain_cases.
Qed.
End Chains.

(** ** The stripped message and the chains that read it *)

Lemma without_actions_message_fields (payload payload' : value) (k : string) :
  without_actions payload = Return payload' ->
  k <> "attachments" ->
  prop (prop payload' "original_message") k
  = prop (prop payload "original_message") k.
Proof.
  intros Hdel Hk.
  destruct (@without_actions_inv payload payload' Hdel) as (Hp & Hr & Ha & _ & first' & _ & ->).
  destruct payload as [| | | | | |fs]; try discriminate Hr.
  cbn [set_prop prop] in *. rewrite lookup_replace_same by exact Hr.
  destruct (lookup "original_message" fs) as [| | | | | |gs];
    try discriminate Ha.
  cbn [set_prop prop]. apply lookup_replace_other. exact Hk.
Qed.

Lemma without_actions_message_present (payload payload' : value) :
  without_actions payload = Return payload' ->
  nullish (prop payload' "original_message") = false.
Proof.
  intros Hdel.
  destruct (@without_actions_inv payload payload' Hdel) as (Hp & Hr & Ha & _ & first' & _ & ->).
  destruct payload as [| | | | | |fs]; try discriminate Hr.
  cbn [set_prop prop] in *. rewrite lookup_replace_same by exact Hr.
  destruct (lookup "original_message" fs); try discriminate Ha; reflexivity.
Qed.

Lemma without_actions_pressed_value (payload payload' : value) :
  without_actions payload = Return payload' ->
  pressed_value payload' = pressed_value payload.
Proof.
  intros Hdel. unfold pressed_value, get.
  rewrite (@without_actions_not_nullish payload payload' Hdel).
  destruct (@without_actions_inv payload payload' Hdel) as (-> & _).
  rewrite (@without_actions_other_fields payload payload' Hdel "actions")
    by discriminate.
  reflexivity.
Qed.

Lemma without_actions_throws (payload : value) (e : exn) :
  without_actions payload = Throw e -> e = TypeError.
Proof.
  unfold without_actions, get, get_index, delete_prop.
  repeat (match goal with
          | |- context [nullish ?v] => destruct (nullish v)
          end; cbn [obind]);
    try (intros H; injection H as <-; reflexivity).
  destruct (elem _ 0); cbn [obind]; intros H; try discriminate H;
    injection H as <-; reflexivity.
Qed.

Lemma selected_value_throws (payload : value) (e : exn) :
  selected_value payload = Throw e -> e = TypeError.
Proof.
  unfold selected_value, get, get_index.
  repeat (match goal with
          | |- context [nullish ?v] => destruct (nullish v)
          end; cbn [obind]);
    intros H; try discriminate H; injection H as <-; reflexivity.
Qed.

Section MoreStripping.
Variable DB : Type.
Variable models : Models DB.
Variables (db : DB) (payload : value).
Hypothesis Huser : nullish (prop payload "user") = false.
Hypothesis Hteam : nullish (prop payload "team") = false.

Lemma accept_tos_run_throw (e : exn) :
  without_actions payload = Throw e ->
  accept_tos (initial_world db payload)
  = (Throw e,
     mkWorld payload [tos_error] [opening_log payload " pressed a button"] []
             db [TosChain (prop (prop payload "user") "id")]).
Proof.
  intros Hdel. unfold accept_tos, strip_and_return_original. js_run.
  rewrite Hdel. reflexivity.
Qed.

Lemma pick_sf_neighborhood_run_throw (e : exn) :
  selected_value payload = Throw e ->
  pick_sf_neighborhood (initial_world db payload)
  = (Throw e,
     mkWorld payload [] [opening_log payload " selected from a menu"] [] db []).
Proof.
  intros Hsel. unfold pick_sf_neighborhood. js_run. rewrite Hsel. reflexivity.
Qed.

(** X4: once a press of a button is handled, [accept_tos] has pushed the
    error text and then one reply: the confirmation that matches the flag of
    the user the persistence layer saved, or the error text again when the
    user is not found, the value of the button cannot be read or the save
    fails.  The flag asked for is whether that value is ['accept'], and the
    persistence layer is written to only by that one save. *)
Theorem accept_tos_outcome :
  let id := prop (prop payload "user") "id" in
  let w' := snd (handle_event models accept_tos (initial_world db payload)) in
  w_responds w'
  = [tos_error;
     match users_findBySlackId models id db with
     | Return user =>
         match pressed_value payload with
         | Return choice =>
             match fst (user_setPolicyAgreementAndSave models user
                          (is_str choice (lit "accept")) db) with
             | Return user' =>
                 text_reply (if agreedToPolicy user'
                             then tos_accepted else tos_denied)
             | Throw _ => tos_error
             end
         | Throw _ => tos_error
         end
     | Throw _ => tos_error
     end]
  /\ w_db w'
     = match users_findBySlackId models id db with
       | Return user =>
           match pressed_value payload with
           | Return choice =>
               snd (user_setPolicyAgreementAndSave models user
                      (is_str choice (lit "accept")) db)
           | Throw _ => db
           end
       | Throw _ => db
       end.
Proof.
  intros id w'. subst w'. unfold handle_event.
  destruct (without_actions payload) as [payload'|e] eqn:Hdel.
  - rewrite (@accept_tos_run DB db payload payload' Huser Hteam Hdel).
    unfold run_timers, clear_timers.
    cbn [snd w_timers fold_left run_task w_payload w_responds w_console
         w_http w_db].
    rewrite tos_chain_run.
    rewrite (@without_actions_pressed_value payload payload' Hdel). fold id.
    destruct (users_findBySlackId models id db) as [user|e1];
      [|split; reflexivity].
    destruct (pressed_value payload) as [choice|e2]; [|split; reflexivity].
    destruct (user_setPolicyAgreementAndSave models user _ db)
      as [[user'|e3] db']; split; reflexivity.
  - rewrite (@accept_tos_run_throw e Hdel).
    unfold run_timers, clear_timers.
    cbn [snd w_timers fold_left run_task w_payload w_responds w_console
         w_http w_db].
    rewrite tos_chain_run. fold id.
    destruct (users_findBySlackId models id db) as [user|e1];
      [|split; reflexivity].
    destruct (pressed_value payload) as [choice|e2]; [|split; reflexivity].
    destruct (user_setPolicyAgreementAndSave models user _ db)
      as [[user'|e3] db']; split; reflexivity.
Qed.
End MoreStripping.

Lemma accept_tos_outcome_witness :
  w_responds (snd (handle_event models0 accept_tos
                     (initial_world store0
                        (VObj [("user", ann); ("team", acme);
                               ("actions", VArr [VObj [("value", str "deny")]]);
                               ("original_message", interactiveButtons)]))))
  = [tos_error; text_reply tos_denied].
Proof.
  apply (proj1 (@accept_tos_outcome Store models0 store0
                  (VObj [("user", ann); ("team", acme);
                         ("actions", VArr [VObj [("value", str "deny")]]);
                         ("original_message", interactiveButtons)])
                  eq_refl eq_refl)).
Defined.

(** X5: when the event has no message to strip (no [original_message], no
    [attachments], or no first attachment), [accept_tos] throws a
    [TypeError] and returns no reply; the error text has been pushed all the
    same, the promise chain still runs and pushes its reply, and the event
    is left as received. *)
Theorem accept_tos_without_message
  (DB : Type) (models : Models DB) (db : DB) (payload : value) (e : exn) :
  nullish (prop payload "user") = false ->
  nullish (prop payload "team") = false ->
  without_actions payload = Throw e ->
  let run := handle_event models accept_tos (initial_world db payload) in
  fst run = Throw TypeError
  /\ w_payload (snd run) = payload
  /\ exists final, w_responds (snd run) = [tos_error; final].
Proof.
  intros Hu Ht Hdel run. subst run. unfold handle_event.
  rewrite (@accept_tos_run_throw DB db payload Hu Ht e Hdel).
  rewrite (without_actions_throws _ Hdel).
  unfold run_timers, clear_timers.
  cbn [fst snd w_timers fold_left run_task w_payload w_responds w_console
       w_http w_db].
  match goal with
  | |- context [tos_chain models ?id ?w] =>
      destruct (tos_chain_effect models id w) as (msg & Hr & Hp & _)
  end.
  rewrite Hr, Hp. cbn [w_responds w_payload app].
  split; [reflexivity | split; [reflexivity | eexists; reflexivity]].
Qed.

Lemma accept_tos_without_message_witness :
  fst (handle_event models0 accept_tos
         (initial_world store0
            (VObj [("user", ann); ("team", acme);
                   ("actions", VArr [VObj [("value", str "accept")]])])))
  = Throw TypeError.
Proof.
  apply (@accept_tos_without_message Store models0 store0
           (VObj [("user", ann); ("team", acme);
                  ("actions", VArr [VObj [("value", str "accept")]])])
           TypeError eq_refl eq_refl eq_refl).
Defined.

(** X6: once a selection in the menu is handled, [pick_sf_neighborhood] has
    pushed exactly one reply: for the neighborhood found under the selected
    value, a message with the text of the original message as it was
    received and one attachment with the name and the link of the
    neighborhood; the error text when the lookup fails. *)
Theorem pick_sf_neighborhood_outcome
  (DB : Type) (models : Models DB) (db : DB) (payload payload' key : value) :
  nullish (prop payload "user") = false ->
  nullish (prop payload "team") = false ->
  without_actions payload = Return payload' ->
  selected_value payload = Return key ->
  w_responds (snd (handle_event models pick_sf_neighborhood
                     (initial_world db payload)))
  = [match neighborhoods_find models key db with
     | Return n =>
         VObj [("text", prop (prop payload "original_message") "text");
               ("attachments", VArr [
                  VObj [("title", VStr (name n));
                        ("title_link", VStr (link n));
                        ("text", str "One of the most interesting neighborhoods in the city.")]])]
     | Throw _ => text_reply (lit "An error occurred while finding the neighborhood.")
     end].
Proof.
  intros Hu Ht Hdel Hsel. unfold handle_event.
  rewrite (@pick_sf_neighborhood_run DB db payload payload' Hu Ht Hdel key Hsel).
  unfold run_timers, clear_timers.
  cbn [snd w_timers fold_left run_task w_payload w_responds w_console
       w_http w_db].
  rewrite neighborhood_chain_run.
  destruct (neighborhoods_find models key db) as [n|e]; [|reflexivity].
  unfold get.
  rewrite (@without_actions_not_nullish payload payload' Hdel).
  cbn [obind].
  rewrite (@without_actions_message_present payload payload' Hdel).
  rewrite (@without_actions_message_fields payload payload' "text" Hdel)
    by discriminate.
  reflexivity.
Qed.

Lemma pick_sf_neighborhood_outcome_witness :
  w_responds (snd (handle_event models0 pick_sf_neighborhood
                     (initial_world store0 menu_event)))
  = [neighborhood_reply (str "Where do you live?")
       (mkNeighborhood (lit "Mission") (lit "https://example.com/mission"))].
Proof.
  apply (@pick_sf_neighborhood_outcome Store models0 store0 menu_event
           menu_event_stripped (str "Mission") eq_refl eq_refl eq_refl eq_refl).
Defined.

(** X7: when the event carries no selected option,
    [pick_sf_neighborhood] throws a [TypeError] before it starts anything:
    no lookup is scheduled, nothing is pushed and the event keeps its
    buttons. *)
Theorem pick_sf_neighborhood_without_selection
  (DB : Type) (models : Models DB) (db : DB) (payload : value) (e : exn) :
  nullish (prop payload "user") = false ->
  nullish (prop payload "team") = false ->
  selected_value payload = Throw e ->
  pick_sf_neighborhood (initial_world db payload)
  = (Throw TypeError,
     mkWorld payload [] [opening_log payload " selected from a menu"] [] db [])
  /\ w_responds (snd (handle_event models pick_sf_neighborhood
                        (initial_world db payload))) = []
  /\ w_payload (snd (handle_event models pick_sf_neighborhood
                       (initial_world db payload))) = payload.
Proof.
  intros Hu Ht Hsel.
  pose proof (@pick_sf_neighborhood_run_throw DB db payload Hu Ht e Hsel) as E.
  rewrite (selected_value_throws _ Hsel) in E.
  split; [exact E|]. unfold handle_event. rewrite E. split; reflexivity.
Qed.

Lemma pick_sf_neighborhood_without_selection_witness :
  w_payload (snd (handle_event models0 pick_sf_neighborhood
                    (initial_world store0 tos_event))) = tos_event.
Proof.
  apply (@pick_sf_neighborhood_without_selection Store models0 store0
           tos_event TypeError eq_refl eq_refl eq_refl).
Defined.

(** ** Stripping twice, and what stripping keeps *)

Lemma replace_field_idem (k : string) (v : value) fs :
  replace_field k v (replace_field k v fs) = replace_field k v fs.
Proof.
  induction fs as [|[k0 v0] fs IH]; [reflexivity|].
  simpl. destruct (String.eqb k k0) eqn:E; simpl; rewrite E;
    [reflexivity | rewrite IH; reflexivity].
Qed.

Lemma replace_nth_idem (v : value) xs :
  replace_nth 0 v (replace_nth 0 v xs) = replace_nth 0 v xs.
Proof. destruct xs; reflexivity. Qed.

Lemma remove_field_idem (k : string) fs :
  remove_field k (remove_field k fs) = remove_field k fs.
Proof.
  unfold remove_field. induction fs as [|[k0 v0] fs IH]; [reflexivity|].
  simpl. destruct (String.eqb k k0) eqn:E; simpl; [exact IH|].
  rewrite E. simpl. rewrite IH. reflexivity.
Qed.

Lemma lookup_remove_other (k k' : string) fs :
  k' <> k -> lookup k' (remove_field k fs) = lookup k' fs.
Proof.
  intros Hk. unfold remove_field.
  induction fs as [|[k0 v0] fs IH]; [reflexivity|].
  simpl. destruct (String.eqb k k0) eqn:E; simpl.
  - apply String.eqb_eq in E. subst k0.
    destruct (String.eqb k' k) eqn:E'; [|exact IH].
    apply String.eqb_eq in E'. contradiction.
  - destruct (String.eqb k' k0); [reflexivity | exact IH].
Qed.

Lemma delete_prop_idem (v v' : value) (k : string) :
  delete_prop v k = Return v' -> delete_prop v' k = Return v'.
Proof.
  destruct v; simpl; intros H; try discriminate H; injection H as <-;
    try reflexivity.
  simpl. rewrite remove_field_idem. reflexivity.
Qed.

Lemma delete_prop_other (v v' : value) (k k' : string) :
  delete_prop v k = Return v' -> k' <> k -> prop v' k' = prop v k'.
Proof.
  destruct v; simpl; intros H Hk; try discriminate H; injection H as <-;
    try reflexivity.
  simpl. apply lookup_remove_other. exact Hk.
Qed.

Lemma set_prop_idem (o v : value) (k : string) :
  set_prop (set_prop o k v) k v = set_prop o k v.
Proof. destruct o; simpl; try reflexivity. rewrite replace_field_idem. reflexivity. Qed.

Lemma set_index_idem (o v : value) :
  set_index (set_index o 0 v) 0 v = set_index o 0 v.
Proof.
  destruct o; cbn [set_index]; try reflexivity.
  - rewrite replace_nth_idem. reflexivity.
  - rewrite replace_field_idem. reflexivity.
Qed.

Lemma nullish_set_prop (o v : value) (k : string) :
  nullish (set_prop o k v) = nullish o.
Proof. destruct o; reflexivity. Qed.

Lemma nullish_set_index (o v : value) (i : nat) :
  nullish (set_index o i v) = nullish o.
Proof. destruct o; reflexivity. Qed.

Lemma prop_set_prop_same (o v : value) (k : string) :
  nullish (prop o k) = false ->
  set_prop o k v = o \/ prop (set_prop o k v) k = v.
Proof.
  destruct o; simpl; auto. intros H. right. apply lookup_replace_same, H.
Qed.

Lemma elem_set_index_deleted (atts first' : value) (k : string) :
  nullish (elem atts 0) = false ->
  delete_prop (elem atts 0) k = Return first' ->
  elem (set_index atts 0 first') 0 = first'.
Proof.
  intros Hf Hd.
  destruct (elem_set_index atts first' Hf) as [E | [E [s Hs]]]; [exact E|].
  rewrite E. subst atts. simpl in *.
  destruct s; simpl in *; [discriminate Hf|].
  injection Hd as <-. reflexivity.
Qed.

Lemma index_key_zero (i : nat) : index_key i = index_key 0 -> i = 0%nat.
Proof.
  unfold index_key. intros H.
  assert (Hn : forall n, Nat.to_uint n <> Decimal.Nil).
  { intros n Hnil. pose proof (DecimalNat.Unsigned.of_to n) as E.
    rewrite Hnil in E. simpl in E. subst n. discriminate Hnil. }
  pose proof (NilZero.usu _ (Hn i)) as Ei.
  pose proof (NilZero.usu _ (Hn 0%nat)) as E0.
  rewrite H in Ei. rewrite E0 in Ei. injection Ei as Ei.
  symmetry. apply DecimalNat.Unsigned.to_uint_inj. exact Ei.
Qed.

Lemma elem_set_index_other (atts v : value) (i : nat) :
  i <> 0%nat -> elem (set_index atts 0 v) i = elem atts i.
Proof.
  intros Hi. destruct atts as [| | | |s|xs|fs]; try reflexivity.
  - destruct xs, i; try reflexivity; contradiction.
  - simpl. apply lookup_replace_other. intros H. apply Hi.
    apply index_key_zero. exact H.
Qed.

Section Stripped.
Variables payload payload' : value.
Hypothesis Hdel : without_actions payload = Return payload'.

Lemma without_actions_attachments :
  exists first',
    delete_prop (elem (prop (prop payload "original_message") "attachments") 0)
                "actions" = Return first'
    /\ prop (prop payload' "original_message") "attachments"
       = set_index (prop (prop payload "original_message") "attachments") 0
                   first'.
Proof.
  destruct (@without_actions_inv payload payload' Hdel)
    as (Hp & Hr & Ha & Hf & first' & Hd & E).
  exists first'. split; [exact Hd|]. subst payload'.
  destruct payload as [| | | | | |fs]; try discriminate Hr.
  cbn [set_prop prop] in *. rewrite lookup_replace_same by exact Hr.
  destruct (lookup "original_message" fs) as [| | | | | |gs];
    try discriminate Ha.
  cbn [set_prop prop] in *. apply lookup_replace_same. exact Ha.
Qed.

Lemma without_actions_idem : without_actions payload' = Return payload'.
Proof.
  destruct without_actions_attachments as (first' & Hd & Eatts).
  destruct (@without_actions_inv payload payload' Hdel)
    as (Hp & Hr & Ha & Hf & first'' & Hd' & E).
  rewrite Hd in Hd'. injection Hd' as <-.
  unfold without_actions, get, get_index.
  rewrite (@without_actions_not_nullish payload payload' Hdel).
  cbn [obind].
  rewrite (@without_actions_message_present payload payload' Hdel).
  cbn [obind]. rewrite Eatts, nullish_set_index, Ha. cbn [obind].
  rewrite (elem_set_index_deleted _ _ Hf Hd).
  rewrite (delete_prop_idem _ _ Hd). cbn [obind].
  rewrite set_index_idem. f_equal.
  rewrite E.
  set (atts' := set_index _ 0 first').
  set (reply := prop payload "original_message") in *.
  assert (Er : prop (set_prop payload "original_message"
                       (set_prop reply "attachments" atts'))
                    "original_message"
               = set_prop reply "attachments" atts').
  { destruct payload; try discriminate Hr. simpl.
    apply lookup_replace_same. exact Hr. }
  rewrite Er, !set_prop_idem. reflexivity.
Qed.
End Stripped.

(** X8: stripping is idempotent.  An event whose message has been stripped
    can be stripped again without any change, so a second press on the same
    event object makes [accept_tos] return the same reply and leave the
    event as the first press left it. *)
Theorem stripping_is_idempotent
  (DB : Type) (models : Models DB) (db : DB) (payload payload' : value) :
  nullish (prop payload "user") = false ->
  nullish (prop payload "team") = false ->
  without_actions payload = Return payload' ->
  without_actions payload' = Return payload'
  /\ fst (handle_event models accept_tos (initial_world db payload'))
     = Return (prop payload' "original_message")
  /\ w_payload (snd (handle_event models accept_tos
                       (initial_world db payload'))) = payload'.
Proof.
  intros Hu Ht Hdel.
  pose proof (@without_actions_idem payload payload' Hdel) as Hidem.
  split; [exact Hidem|].
  assert (Hu' : nullish (prop payload' "user") = false).
  { rewrite (@without_actions_other_fields payload payload' Hdel "user")
      by discriminate. exact Hu. }
  assert (Ht' : nullish (prop payload' "team") = false).
  { rewrite (@without_actions_other_fields payload payload' Hdel "team")
      by discriminate. exact Ht. }
  destruct (@accept_tos_handled DB models db payload' payload' Hu' Ht' Hidem)
    as (Hr & Hp & _).
  split; assumption.
Qed.

Lemma stripping_is_idempotent_witness :
  w_payload (snd (handle_event models0 accept_tos
                    (initial_world store0 tos_event_stripped)))
  = tos_event_stripped.
Proof.
  apply (@stripping_is_idempotent Store models0 store0 tos_event
           tos_event_stripped eq_refl eq_refl eq_refl).
Defined.

(** X9: stripping removes nothing but the actions of the first attachment.
    Every other field of the message, every other attachment and every
    other field of the first attachment keep their values. *)
Theorem stripping_keeps_the_rest_of_the_message (payload payload' : value) :
  without_actions payload = Return payload' ->
  let message := prop payload "original_message" in
  let message' := prop payload' "original_message" in
  (forall k, k <> "attachments" -> prop message' k = prop message k)
  /\ (forall i, i <> 0%nat ->
        elem (prop message' "attachments") i
        = elem (prop message "attachments") i)
  /\ (forall k, k <> "actions" ->
        prop (elem (prop message' "attachments") 0) k
        = prop (elem (prop message "attachments") 0) k).
Proof.
  intros Hdel message message'. subst message message'.
  destruct (@without_actions_attachments payload payload' Hdel)
    as (first' & Hd & Eatts).
  destruct (@without_actions_inv payload payload' Hdel)
    as (_ & _ & _ & Hf & _).
  split; [|split].
  - intros k Hk.
    apply (@without_actions_message_fields payload payload' k Hdel Hk).
  - intros i Hi. rewrite Eatts. apply elem_set_index_other. exact Hi.
  - intros k Hk. rewrite Eatts.
    rewrite (elem_set_index_deleted _ _ Hf Hd).
    apply (delete_prop_other _ Hd Hk).
Qed.

Lemma stripping_keeps_the_rest_of_the_message_witness :
  prop (elem (prop (prop tos_event_stripped "original_message") "attachments")
             0) "callback_id"
  = str "accept_tos".
Proof.
  rewrite (proj2 (proj2 (@stripping_keeps_the_rest_of_the_message tos_event
                           tos_event_stripped eq_refl))
             "callback_id" ltac:(discriminate)).
  reflexivity.
Defined.

(** ** When the listing fails *)

Section ListingFailures.
Variable DB : Type.
Implicit Types (w : world DB) (device : value).

Ltac absurd_type :=
  match goal with
  | H1 : (?n =? ?a) = true, H2 : (?n =? ?b) = true |- _ =>
      apply Z.eqb_eq in H1; apply Z.eqb_eq in H2; lia
  end.

Lemma printDeviceInfo_value device w :
  nullish device = false ->
  fst (printDeviceInfo device w)
  = if well_formed device
    then Return (if is_light device then light_summary device else VUndefined)
    else Throw TypeError.
Proof.
  intros Hd. unfold printDeviceInfo, well_formed, is_light, light_summary,
               get, get_index.
  rewrite Hd. cbv beta iota zeta delta [bind lift ret console console_log].
  destruct (prop device "type") as [| | |n| | |]; cbn [is_num orb];
    try reflexivity.
  destruct (n =? 0) eqn:E0, (n =? 4) eqn:E4, (n =? 2) eqn:E2, (n =? 3) eqn:E3;
    cbn [orb]; try absurd_type;
    repeat (match goal with
            | |- context [nullish ?v] => destruct (nullish v)
            end; cbn [negb andb]); reflexivity.
Qed.

Lemma device_loop_throw (pre : list value) device post w0 (e : exn) :
  Forall (fun d => nullish d = false /\ well_formed d = true) pre ->
  fst (printDeviceInfo device w0) = Throw e ->
  forall blocks w,
    fst (device_loop (pre ++ device :: post) blocks w) = Throw e.
Proof.
  intros Hpre Hthrow. induction Hpre as [|d pre [Hd Hwf] _ IH];
    intros blocks w; simpl app; rewrite device_loop_cons.
  - rewrite (printDeviceInfo_fst_indep device w0 w) in Hthrow.
    destruct (printDeviceInfo device w) as [r w1]. simpl in Hthrow. subst r.
    reflexivity.
  - pose proof (@printDeviceInfo_value d w Hd) as E. rewrite Hwf in E.
    destruct (printDeviceInfo d w) as [r w1]. simpl in E. subst r.
    cbv zeta. destruct (is_light d).
    + cbn [is_undefined light_summary]. cbv iota.
      rewrite device_blocks_rendered. apply IH.
    + cbn [is_undefined]. cbv iota. apply IH.
Qed.
End ListingFailures.

Lemma slash_devices_failure
  (DB : Type) (svc : Services) (req : request) (w : world DB)
  (text : jsstring) (e : exn) :
  nullish (req_body req) = false ->
  req_verified req = true ->
  is_str (prop (req_body req) "command") command_name = true ->
  prop (req_body req) "text" = VStr text ->
  before_space text = lit "devices" ->
  fst (getAndPrintDevices svc w) = Throw e ->
  fst (slackSlashCommand svc req w) = Throw e
  /\ w_http (snd (slackSlashCommand svc req w)) = w_http w.
Proof.
  intros Hbody Hv Hc Ht Hword Hfail.
  rewrite (@slackSlashCommand_accepted DB svc req w Hbody text Hv Hc Ht).
  cbv zeta. rewrite Hword.
  change (jsstring_eqb (lit "devices") (lit "button")) with false.
  change (jsstring_eqb (lit "devices") (lit "menu")) with false.
  change (jsstring_eqb (lit "devices") (lit "devices")) with true.
  cbv iota. unfold bind.
  set (w1 := logged w (ConsoleLog [LVal (str "TCL: slackSlashCommand -> req");
                                   LVal (req_body req)])).
  pose proof (getAndPrintDevices_http svc w1) as Hh.
  rewrite (getAndPrintDevices_fst_indep svc w w1) in Hfail.
  destruct (getAndPrintDevices svc w1) as [r w']. simpl in Hfail. subst r.
  cbn [fst snd] in *. split; [reflexivity | exact Hh].
Qed.

(** X10: for a device record, [printDeviceInfo] throws a [TypeError] exactly
    when the sub-record its case reads is missing ([deviceInfo] for a remote
    or a sensor, the first entry of [lightList] for a light, of [plugList]
    for a plug); otherwise it returns the summary for a light and
    [undefined] for everything else. *)
Theorem printDeviceInfo_fails_exactly_when_malformed
  (DB : Type) (device : value) (w : world DB) :
  nullish device = false ->
  fst (printDeviceInfo device w)
  = if well_formed device
    then Return (if is_light device then light_summary device else VUndefined)
    else Throw TypeError.
Proof. apply printDeviceInfo_value. Qed.

Lemma printDeviceInfo_fails_exactly_when_malformed_witness :
  fst (printDeviceInfo
         (VObj [("type", VNum 3); ("instanceId", VNum 65542);
                ("name", str "Loose outlet"); ("plugList", VArr [])]) idle)
  = Throw TypeError
  /\ fst (printDeviceInfo
            (VObj [("type", VNum 4); ("instanceId", VNum 65543);
                   ("name", str "Bare sensor")]) idle)
     = Throw TypeError.
Proof.
  split.
  - apply (@printDeviceInfo_fails_exactly_when_malformed unit
             (VObj [("type", VNum 3); ("instanceId", VNum 65542);
                    ("name", str "Loose outlet"); ("plugList", VArr [])])
             idle eq_refl).
  - apply (@printDeviceInfo_fails_exactly_when_malformed unit
             (VObj [("type", VNum 4); ("instanceId", VNum 65543);
                    ("name", str "Bare sensor")])
             idle eq_refl).
Defined.

(** X11: one malformed device makes the whole listing fail.  When the
    devices enumerated before it are well formed, [getAndPrintDevices]
    throws the [TypeError] of that device and yields no modal, whatever
    comes after it; and the [devices] sub-command then throws as well,
    without any call on [res]. *)
Theorem listing_fails_at_a_malformed_device
  (DB : Type) (svc : Services) (pre post : list (string * value))
  (key : string) (device : value) (w : world DB) :
  getConnection svc = Return (pre ++ (key, device) :: post) ->
  Forall (fun d => nullish d = false /\ well_formed d = true) (map snd pre) ->
  nullish device = false ->
  well_formed device = false ->
  fst (getAndPrintDevices svc w) = Throw TypeError
  /\ (forall (req : request) (text : jsstring),
         nullish (req_body req) = false ->
         req_verified req = true ->
         is_str (prop (req_body req) "command") command_name = true ->
         prop (req_body req) "text" = VStr text ->
         before_space text = lit "devices" ->
         fst (slackSlashCommand svc req w) = Throw TypeError
         /\ w_http (snd (slackSlashCommand svc req w)) = w_http w).
Proof.
  intros Hc Hpre Hd Hwf.
  assert (Hfail : fst (getAndPrintDevices svc w) = Throw TypeError).
  { rewrite (getAndPrintDevices_run _ w Hc).
    rewrite map_app. simpl map.
    assert (Hthrow : fst (printDeviceInfo device w) = Throw TypeError).
    { rewrite (@printDeviceInfo_value DB device w Hd), Hwf. reflexivity. }
    pose proof (@device_loop_throw DB (map snd pre) device (map snd post) w
                  TypeError Hpre Hthrow [welcome_block]
                  (logged w (ConsoleLog
                               [LVal (VObj (pre ++ (key, device) :: post))])))
      as E.
    destruct (device_loop _ _ _) as [r w']. simpl in E. subst r.
    reflexivity. }
  split; [exact Hfail|].
  intros req text Hbody Hv Hcmd Ht Hword.
  apply (@slash_devices_failure DB svc req w text TypeError); assumption.
Qed.

Lemma listing_fails_at_a_malformed_device_witness :
  fst (getAndPrintDevices
         (gateway_of [("65537", light0); ("65541", light_without_channel);
                      ("65538", plug0)]) idle)
  = Throw TypeError.
Proof.
  apply (@listing_fails_at_a_malformed_device unit
           (gateway_of [("65537", light0); ("65541", light_without_channel);
                        ("65538", plug0)])
           [("65537", light0)] [("65538", plug0)] "65541"
           light_without_channel idle eq_refl).
  - repeat constructor.
  - reflexivity.
  - reflexivity.
Defined.

(** X12: when the connection to the gateway fails, [getAndPrintDevices]
    throws what the connection failed with before it logs anything, and the
    [devices] sub-command throws the same, without any call on [res]. *)
Theorem listing_fails_with_the_connection
  (DB : Type) (svc : Services) (w : world DB) (e : exn) :
  getConnection svc = Throw e ->
  getAndPrintDevices svc w = (Throw e, w)
  /\ (forall (req : request) (text : jsstring),
         nullish (req_body req) = false ->
         req_verified req = true ->
         is_str (prop (req_body req) "command") command_name = true ->
         prop (req_body req) "text" = VStr text ->
         before_space text = lit "devices" ->
         fst (slackSlashCommand svc req w) = Throw e
         /\ w_http (snd (slackSlashCommand svc req w)) = w_http w).
Proof.
  intros Hc.
  assert (E : getAndPrintDevices svc w = (Throw e, w)).
  { unfold getAndPrintDevices. rewrite Hc. reflexivity. }
  split; [exact E|].
  intros req text Hbody Hv Hcmd Ht Hword.
  apply (@slash_devices_failure DB svc req w text e); try assumption.
  rewrite E. reflexivity.
Qed.

Lemma listing_fails_with_the_connection_witness :
  w_http (snd (slackSlashCommand
                 (mkServices (Throw (Rejected (str "timeout")))
                             (fun _ => None) (fun _ _ => None))
                 (slash_request command_name (lit "devices") true) idle))
  = [].
Proof.
  apply (proj2 (@listing_fails_with_the_connection unit
                  (mkServices (Throw (Rejected (str "timeout")))
                              (fun _ => None) (fun _ _ => None))
                  idle (Rejected (str "timeout")) eq_refl)
           (slash_request command_name (lit "devices") true)
           (lit "devices") eq_refl eq_refl eq_refl eq_refl eq_refl).
Defined.

Lemma rendered_length (devices : list value) :
  List.length
    (flat_map rendered
       (map (fun d => if is_light d then light_summary d else VUndefined)
            devices))
  = (4 * List.length (filter is_light devices))%nat.
Proof.
  induction devices as [|d devices IH]; [reflexivity|].
  cbn [map flat_map filter]. rewrite length_app, IH.
  destruct (is_light d); cbn [rendered is_undefined light_summary List.length];
    lia.
Qed.

(** X13: when every device is well formed, the listing succeeds and its
    modal has one block for the welcome text and four blocks for each light:
    the number of blocks is one plus four times the number of lights. *)
Theorem listing_block_count
  (DB : Type) (svc : Services) (devices : list (string * value))
  (w : world DB) :
  getConnection svc = Return devices ->
  Forall (fun d => nullish d = false /\ well_formed d = true)
         (map snd devices) ->
  exists blocks,
    fst (getAndPrintDevices svc w) = Return (deviceInfo_modal blocks)
    /\ List.length blocks
       = (1 + 4 * List.length (filter is_light (map snd devices)))%nat.
Proof.
  intros Hc Hall.
  exists (welcome_block
          :: flat_map rendered
               (map (fun d => if is_light d then light_summary d
                              else VUndefined) (map snd devices))).
  split.
  - apply (getAndPrintDevices_blocks _ w Hc).
    induction Hall as [|d ds [Hd Hwf] _ IH]; cbn [map]; constructor;
      [|exact IH].
    rewrite (@printDeviceInfo_value DB d w Hd), Hwf. reflexivity.
  - cbn [List.length]. rewrite rendered_length. reflexivity.
Qed.

Lemma listing_block_count_witness :
  exists blocks,
    fst (getAndPrintDevices (gateway_of home) idle)
    = Return (deviceInfo_modal blocks)
    /\ List.length blocks = 5%nat.
Proof.
  apply (@listing_block_count unit (gateway_of home) home idle eq_refl).
  repeat constructor.
Defined.

(** ** The slash command at its edges *)

Lemma open_dialog_run
  (DB : Type) (svc : Services) (body : value) (w : world DB) :
  nullish body = false ->
  open_dialog svc body w
  = (Return tt,
     mkWorld (w_payload w) (w_responds w)
       (w_console w
        ++ dialog_errors svc (prop body "trigger_id") (prop body "response_url"))
       (w_http w
        ++ dialog_calls svc (prop body "trigger_id") (prop body "response_url"))
       (w_db w) (w_timers w)).
Proof.
  intros Hbody. unfold open_dialog, dialog_calls, dialog_errors,
                  views_open_arg, dialog_report.
  js_run. destruct w as [p rs cs hs db ts].
  cbv beta iota delta [w_payload w_responds w_console w_http w_db w_timers].
  destruct (views_open svc _) as [error|].
  - unfold get. js_unfold. destruct (nullish error); cbv beta iota.
    + rewrite <- !app_assoc. reflexivity.
    + destruct (axios_post svc _ _); rewrite <- !app_assoc;
        rewrite ?app_nil_r; reflexivity.
  - rewrite <- !app_assoc, app_nil_r. reflexivity.
Qed.

(** X15: the [dialog] sub-command never throws and answers before it tries:
    [res.send()] comes first, then [views.open] with the trigger id of the
    request.  When [views.open] fails with an error object, the message of
    that error is posted to the response url of the request; a failure of
    that post, or an error that is [undefined] or [null], only reaches the
    console. *)
Theorem open_dialog_never_throws
  (DB : Type) (svc : Services) (body : value) (w : world DB) :
  nullish body = false ->
  let arg := VObj [("trigger_id", prop body "trigger_id");
                   ("view", VObj [("interactiveMenu", interactiveMenu)])] in
  let run := open_dialog svc body w in
  fst run = Return tt
  /\ w_responds (snd run) = w_responds w
  /\ (views_open svc arg = None ->
      w_http (snd run) = w_http w ++ [ResSend None; ViewsOpen arg]
      /\ w_console (snd run) = w_console w)
  /\ (forall error,
        views_open svc arg = Some error ->
        nullish error = false ->
        w_http (snd run)
        = w_http w
          ++ [ResSend None; ViewsOpen arg;
              AxiosPost (prop body "response_url")
                (text_reply (lit "An error occurred while opening the dialog: "
                             ++ to_string (prop error "message")))])
  /\ (forall error,
        views_open svc arg = Some error ->
        nullish error = true ->
        w_http (snd run) = w_http w ++ [ResSend None; ViewsOpen arg]
        /\ w_console (snd run) = w_console w ++ [ConsoleError TypeError]).
Proof.
  intros Hbody arg run. subst run. rewrite (@open_dialog_run DB svc body w Hbody).
  cbn [fst snd w_responds w_http w_console].
  unfold dialog_calls, dialog_errors, views_open_arg, dialog_report.
  fold arg.
  split; [reflexivity | split; [reflexivity | split; [|split]]].
  - intros ->. rewrite app_nil_r. split; reflexivity.
  - intros error -> ->. reflexivity.
  - intros error -> ->. split; reflexivity.
Qed.

Lemma open_dialog_never_throws_witness :
  w_http (snd (open_dialog
                 (mkServices (Return [])
                    (fun _ => Some (VObj [("message", str "expired_trigger_id")]))
                    (fun _ _ => None))
                 (req_body (slash_request command_name (lit "dialog") true))
                 idle))
  = [ResSend None;
     ViewsOpen (views_open_arg (str "13345224609.738474920.8088930838d88f008e0"));
     AxiosPost (str "https://hooks.slack.com/commands/1234/5678")
       (text_reply (lit "An error occurred while opening the dialog: expired_trigger_id"))].
Proof.
  apply (proj1 (proj2 (proj2 (proj2 (@open_dialog_never_throws unit
           (mkServices (Return [])
              (fun _ => Some (VObj [("message", str "expired_trigger_id")]))
              (fun _ _ => None))
           (req_body (slash_request command_name (lit "dialog") true))
           idle eq_refl))))
           (VObj [("message", str "expired_trigger_id")]) eq_refl eq_refl).
Defined.

(** X16: a verified request for the command whose body has no text (or a
    text that is not a string) gets no response at all: the handler throws a
    [TypeError] before any call on [res] or [next]. *)
Theorem slash_command_without_text_throws
  (DB : Type) (svc : Services) (req : request) (w : world DB) :
  nullish (req_body req) = false ->
  req_verified req = true ->
  is_str (prop (req_body req) "command") command_name = true ->
  (forall s, prop (req_body req) "text" <> VStr s) ->
  fst (slackSlashCommand svc req w) = Throw TypeError
  /\ w_http (snd (slackSlashCommand svc req w)) = w_http w.
Proof.
  intros Hbody Hv Hc Ht. unfold slackSlashCommand. js_run.
  rewrite Hv, Hc. cbn [andb].
  destruct (prop (req_body req) "text") as [| | | |s| |];
    cbn [call_split_space]; cbv beta iota; try (split; reflexivity).
  exfalso. apply (Ht s). reflexivity.
Qed.

Lemma slash_command_without_text_throws_witness :
  fst (slackSlashCommand (gateway_of home)
         (mkRequest (VObj [("command", VStr command_name)]) true) idle)
  = Throw TypeError.
Proof.
  apply (@slash_command_without_text_throws unit (gateway_of home)
           (mkRequest (VObj [("command", VStr command_name)]) true) idle
           eq_refl eq_refl eq_refl).
  intros s H. discriminate H.
Defined.

(** X17: a verified request for the command whose text is empty or begins
    with a space selects no sub-command: its first word is empty, and the
    usage string is sent. *)
Theorem slash_command_blank_first_word
  (DB : Type) (svc : Services) (req : request) (w : world DB)
  (text : jsstring) :
  nullish (req_body req) = false ->
  req_verified req = true ->
  is_str (prop (req_body req) "command") command_name = true ->
  prop (req_body req) "text" = VStr text ->
  text = [] \/ (exists rest, text = space :: rest) ->
  fst (slackSlashCommand svc req w) = Return tt
  /\ w_http (snd (slackSlashCommand svc req w))
     = w_http w
       ++ [ResSend (Some (str "Use this command followed by `button`, `menu`, or `dialog`."))].
Proof.
  intros Hbody Hv Hc Ht Hblank.
  rewrite (@slackSlashCommand_accepted DB svc req w Hbody text Hv Hc Ht).
  assert (E : before_space text = []).
  { destruct Hblank as [-> | [rest ->]]; reflexivity. }
  cbv zeta. rewrite E. split; reflexivity.
Qed.

Lemma slash_command_blank_first_word_witness :
  w_http (snd (slackSlashCommand (gateway_of home)
                 (slash_request command_name (lit " menu") true) idle))
  = [ResSend (Some usage)].
Proof.
  apply (@slash_command_blank_first_word unit (gateway_of home)
           (slash_request command_name (lit " menu") true) idle (lit " menu")
           eq_refl eq_refl eq_refl eq_refl).
  right. exists (lit "menu"). reflexivity.
Defined.

(** X18: what follows the first word of the text is ignored.  Two verified
    requests for the command whose texts have the same first word, and that
    carry the same trigger id and response url, get the same result and the
    same calls on [res], [views.open] and the response url. *)
Theorem slash_command_depends_on_first_word_only
  (DB : Type) (svc : Services) (req req' : request) (w : world DB)
  (text text' : jsstring) :
  nullish (req_body req) = false ->
  nullish (req_body req') = false ->
  req_verified req = true ->
  req_verified req' = true ->
  is_str (prop (req_body req) "command") command_name = true ->
  is_str (prop (req_body req') "command") command_name = true ->
  prop (req_body req) "text" = VStr text ->
  prop (req_body req') "text" = VStr text' ->
  prop (req_body req) "trigger_id" = prop (req_body req') "trigger_id" ->
  prop (req_body req) "response_url" = prop (req_body req') "response_url" ->
  before_space text = before_space text' ->
  fst (slackSlashCommand svc req w) = fst (slackSlashCommand svc req' w)
  /\ w_http (snd (slackSlashCommand svc req w))
     = w_http (snd (slackSlashCommand svc req' w)).
Proof.
  intros Hb Hb' Hv Hv' Hc Hc' Ht Ht' Htrig Hurl Hword.
  rewrite (@slackSlashCommand_accepted DB svc req w Hb text Hv Hc Ht).
  rewrite (@slackSlashCommand_accepted DB svc req' w Hb' text' Hv' Hc' Ht').
  cbv zeta. rewrite Hword.
  set (w1 := logged w (ConsoleLog [LVal (str "TCL: slackSlashCommand -> req");
                                   LVal (req_body req)])).
  set (w1' := logged w (ConsoleLog [LVal (str "TCL: slackSlashCommand -> req");
                                    LVal (req_body req')])).
  destruct (jsstring_eqb (before_space text') (lit "button"));
    [split; reflexivity|].
  destruct (jsstring_eqb (before_space text') (lit "menu"));
    [split; reflexivity|].
  destruct (jsstring_eqb (before_space text') (lit "devices")).
  { unfold bind.
    pose proof (getAndPrintDevices_http svc w1) as Hh.
    pose proof (getAndPrintDevices_http svc w1') as Hh'.
    pose proof (getAndPrintDevices_fst_indep svc w1 w1') as Hi.
    destruct (getAndPrintDevices svc w1) as [r u].
    destruct (getAndPrintDevices svc w1') as [r' u'].
    cbn [fst snd] in *. subst r'. destruct r as [modal|e]; cbn [fst snd].
    - unfold http. cbn [fst snd w_http]. rewrite Hh, Hh'. split; reflexivity.
    - rewrite Hh, Hh'. split; reflexivity. }
  destruct (jsstring_eqb (before_space text') (lit "dialog")).
  { rewrite (@open_dialog_run DB svc (req_body req) w1 Hb).
    rewrite (@open_dialog_run DB svc (req_body req') w1' Hb').
    rewrite Htrig, Hurl. split; reflexivity. }
  split; reflexivity.
Qed.

Lemma slash_command_depends_on_first_word_only_witness :
  w_http (snd (slackSlashCommand (gateway_of home)
                 (slash_request command_name (lit "dialog") true) idle))
  = w_http (snd (slackSlashCommand (gateway_of home)
                   (slash_request command_name (lit "dialog for ann") true)
                   idle)).
Proof.
  apply (@slash_command_depends_on_first_word_only unit (gateway_of home)
           (slash_request command_name (lit "dialog") true)
           (slash_request command_name (lit "dialog for ann") true)
           idle (lit "dialog") (lit "dialog for ann")
           eq_refl eq_refl eq_refl eq_refl eq_refl eq_refl eq_refl eq_refl
           eq_refl eq_refl eq_refl).
Defined.

(** ** The event after it is handled *)

(** C8, as the code has it: on an event whose message has a first
    attachment, [accept_tos] and [pick_sf_neighborhood] delete the actions
    of that attachment in the event's own [original_message] and return that
    message; the other fields of the event, the other fields of the message,
    the other attachments and the other fields of the first attachment keep
    their values.  The dialog and options handlers leave every event as it
    was received. *)
Theorem handlers_strip_the_event_in_place
  (DB : Type) (models : Models DB) (db : DB) (payload : value) :
  let w := initial_world db payload in
  (forall payload',
      nullish (prop payload "user") = false ->
      nullish (prop payload "team") = false ->
      without_actions payload = Return payload' ->
      let message := prop payload "original_message" in
      let message' := prop payload' "original_message" in
      (fst (handle_event models accept_tos w) = Return message'
       /\ w_payload (snd (handle_event models accept_tos w)) = payload')
      /\ (forall key,
            selected_value payload = Return key ->
            fst (handle_event models pick_sf_neighborhood w) = Return message'
            /\ w_payload (snd (handle_event models pick_sf_neighborhood w))
               = payload')
      /\ (forall k, k <> "original_message" -> prop payload' k = prop payload k)
      /\ (forall k, k <> "attachments" -> prop message' k = prop message k)
      /\ (forall i, i <> 0%nat ->
            elem (prop message' "attachments") i
            = elem (prop message "attachments") i)
      /\ (forall k, k <> "actions" ->
            prop (elem (prop message' "attachments") 0) k
            = prop (elem (prop message "attachments") 0) k)
      /\ prop (elem (prop message' "attachments") 0) "actions" = VUndefined)
  /\ w_payload (snd (handle_event models dialog_submission w)) = payload
  /\ w_payload (snd (handle_event models (pick_sf_neighborhood_options models)
                       w)) = payload.
Proof.
  intros w. split; [|split].
  - intros payload' Hu Ht Hd message message'. subst message message'.
    destruct (@accept_tos_handled DB models db payload payload' Hu Ht Hd)
      as (Hr & Hp & _).
    destruct (@without_actions_attachments payload payload' Hd)
      as (first' & Hdel & Eatts).
    destruct (@without_actions_inv payload payload' Hd)
      as (_ & _ & _ & Hf & _).
    split; [split; assumption|].
    split.
    { intros key Hkey.
      apply (@pick_sf_neighborhood_handled DB models db payload payload'
               Hu Ht Hd key Hkey). }
    split.
    { intros k Hk.
      apply (@without_actions_other_fields payload payload' Hd k Hk). }
    split.
    { intros k Hk.
      apply (@without_actions_message_fields payload payload' k Hd Hk). }
    split.
    { intros i Hi. rewrite Eatts. apply elem_set_index_other. exact Hi. }
    split.
    { intros k Hk. rewrite Eatts.
      rewrite (elem_set_index_deleted _ _ Hf Hdel).
      apply (delete_prop_other _ Hdel Hk). }
    apply (@without_actions_deleted payload payload' Hd).
  - apply dialog_submission_payload.
  - apply options_payload.
Qed.

Lemma handlers_strip_the_event_in_place_witness :
  w_payload (snd (handle_event models0 accept_tos
                    (initial_world store0 tos_event)))
  = tos_event_stripped
  /\ w_payload (snd (handle_event models0 pick_sf_neighborhood
                       (initial_world store0 menu_event)))
     = menu_event_stripped
  /\ w_payload (snd (handle_event models0 dialog_submission
                       (initial_world store0 kudos_event)))
     = kudos_event
  /\ w_payload (snd (handle_event models0
                       (pick_sf_neighborhood_options models0)
                       (initial_world store0
                          (VObj [("user", ann); ("team", acme);
                                 ("value", str "Mis")]))))
     = VObj [("user", ann); ("team", acme); ("value", str "Mis")].
Proof.
  split; [|split; [|split]].
  - apply (proj1 (@handlers_strip_the_event_in_place Store models0 store0
                    tos_event)
             tos_event_stripped eq_refl eq_refl eq_refl).
  - apply (proj1 (proj2 (proj1 (@handlers_strip_the_event_in_place Store
                                  models0 store0 menu_event)
                           menu_event_stripped eq_refl eq_refl eq_refl))
             (str "Mission") eq_refl).
  - apply (proj1 (proj2 (@handlers_strip_the_event_in_place Store models0
                           store0 kudos_event))).
  - apply (proj2 (proj2 (@handlers_strip_the_event_in_place Store models0
                           store0
                           (VObj [("user", ann); ("team", acme);
                                  ("value", str "Mis")])))).
Defined.
